(** * Raptor Event Scout: the event intake-and-ranking pipeline

    A shallow embedding of the pipeline of the repository
    (discovery, persistence, scoring, registration, notification) and the
    properties its specification states about it.

    Python values are modelled as follows.
    - [str] is a sequence of Unicode code points ([PyStr.pystr]).
    - [float] is an IEEE 754 binary64 number ([PyFloat.float], the
      [spec_float] of the standard library with precision 53 and maximal
      exponent 1024): arithmetic is the correctly rounded arithmetic of
      [SpecFloat]; comparisons compare the exact values, which on the
      numbers of binary64 is [SFcompare].
    - [try]/[except] is an explicit sum of an exception and a result.
    - what a function reads from outside the repository (the scoring oracle,
      the HTTP endpoint, the row store, the notification channels, the clock)
      is an argument of its model. *)

From Stdlib Require Import ZArith NArith QArith Qround Bool List String Ascii Lia.
From Stdlib Require Import SpecFloat Sorted Permutation.
Import ListNotations.

Set Implicit Arguments.

(* ================================================================== *)
(** * Python strings *)
(* ================================================================== *)

Module PyStr.

(** A Python [str] is an immutable sequence of Unicode code points. *)
Definition codepoint := N.
Definition pystr := list codepoint.

(** An ASCII literal of the source, as code points. *)
Definition str (s : string) : pystr :=
  map N_of_ascii (list_ascii_of_string s).

(** [a == b] on strings. *)
Fixpoint eqb (a b : pystr) : bool :=
  match a, b with
  | [], [] => true
  | x :: a', y :: b' => N.eqb x y && eqb a' b'
  | _, _ => false
  end.

(** [hay.startswith(needle)]. *)
Fixpoint startswith (hay needle : pystr) : bool :=
  match needle, hay with
  | [], _ => true
  | x :: needle', y :: hay' => N.eqb x y && startswith hay' needle'
  | _ :: _, [] => false
  end.

(** [needle in hay]: [needle] occurs as a contiguous substring. *)
Fixpoint contains (hay needle : pystr) : bool :=
  startswith hay needle ||
  match hay with
  | [] => false
  | _ :: hay' => contains hay' needle
  end.

(** [x in xs] for a list of strings [xs]. *)
Definition mem (x : pystr) (xs : list pystr) : bool := existsb (eqb x) xs.

(** [any(ind in s for ind in inds)]. *)
Definition any_in (inds : list pystr) (s : pystr) : bool :=
  existsb (contains s) inds.

(** [s[:n]]. *)
Definition slice_to (n : nat) (s : pystr) : pystr := firstn n s.

(** Lowercase of an ASCII code point: [A]-[Z] go to [a]-[z]. *)
Definition ascii_lower (c : codepoint) : codepoint :=
  if (65 <=? c)%N && (c <=? 90)%N then (c + 32)%N else c.

Section Lower.

(** The Unicode lowercase mapping of a code point outside ASCII, given
    the code points before and after it in the string (the mapping of a
    capital sigma depends on them).  The table is part of the Python
    runtime, not of the repository. *)
Variable lower_full : pystr -> codepoint -> pystr -> pystr.

Fixpoint lower_from (before s : pystr) : pystr :=
  match s with
  | [] => []
  | c :: rest =>
      (if (c <? 128)%N then [ascii_lower c] else lower_full before c rest)
      ++ lower_from (before ++ [c]) rest
  end.

(** [s.lower()]. *)
Definition lower (s : pystr) : pystr := lower_from [] s.

End Lower.

(** The mapping that leaves every code point outside ASCII unchanged: the
    Unicode mapping restricted to strings whose non-ASCII code points are
    uncased (digits, punctuation, currency signs, CJK ideographs). *)
Definition uncased : pystr -> codepoint -> pystr -> pystr :=
  fun _ c _ => [c].

End PyStr.

Import PyStr.

(* ================================================================== *)
(** * Python floats *)
(* ================================================================== *)

Module PyFloat.

Definition float := spec_float.

Definition prec : Z := 53.
Definition emax : Z := 1024.

Definition fadd : float -> float -> float := SFadd prec emax.
Definition fmul : float -> float -> float := SFmul prec emax.
Definition fdiv : float -> float -> float := SFdiv prec emax.
Definition fopp : float -> float := SFopp.

(** The binary64 number nearest to the rational [n / d] (ties to even):
    the value of a decimal literal such as [0.4] ([ratio 4 10]), of an
    integer converted to a float ([ratio k 1]), and of a decimal string
    read back as a float. *)
Definition ratio (n : Z) (d : positive) : float :=
  match n with
  | Z0 => S754_zero false
  | Zpos p => fdiv (S754_finite false p 0) (S754_finite false d 0)
  | Zneg p => fdiv (S754_finite true p 0) (S754_finite false d 0)
  end.

(** [float(k)] for a Python integer [k]. *)
Definition of_int (k : Z) : float := ratio k 1.

(** The exact value of a finite number with sign [s], mantissa [m] and
    exponent [e]: [(-1)^s * m * 2^e]. *)
Definition F2Q (s : bool) (m : positive) (e : Z) : Q :=
  let v := match e with
           | Z0 => inject_Z (Zpos m)
           | Zpos p => inject_Z (Zpos m * 2 ^ Zpos p)
           | Zneg p => Zpos m # (2 ^ p)
           end in
  if s then Qopp v else v.

Definition value (x : float) : Q :=
  match x with
  | S754_finite s m e => F2Q s m e
  | _ => 0
  end.

Definition is_finite (x : float) : bool :=
  match x with
  | S754_zero _ | S754_finite _ _ _ => true
  | _ => false
  end.

(** Zero, a positive finite number or plus infinity; and the same without
    the infinity. *)
Definition nonneg (x : float) : bool :=
  match x with
  | S754_zero _ | S754_finite false _ _ | S754_infinity false => true
  | _ => false
  end.
Definition fin_nonneg (x : float) : bool :=
  match x with
  | S754_zero _ | S754_finite false _ _ => true
  | _ => false
  end.

(** IEEE 754 comparison: NaN is unordered, the infinities are the extremes,
    and the other numbers (with [-0.0 = 0.0]) compare as their values. *)
Definition fcompare (x y : float) : option comparison :=
  match x, y with
  | S754_nan, _ | _, S754_nan => None
  | S754_infinity s1, S754_infinity s2 =>
      Some (match s1, s2 with
            | true, true | false, false => Eq
            | true, false => Lt
            | false, true => Gt
            end)
  | S754_infinity s, _ => Some (if s then Lt else Gt)
  | _, S754_infinity s => Some (if s then Gt else Lt)
  | _, _ => Some (Qcompare (value x) (value y))
  end.

(** [x < y], [x <= y], [x > y], [x >= y]. *)
Definition flt (x y : float) : bool :=
  match fcompare x y with Some Lt => true | _ => false end.
Definition fle (x y : float) : bool :=
  match fcompare x y with Some (Lt | Eq) => true | _ => false end.
Definition fgt (x y : float) : bool := flt y x.
Definition fge (x y : float) : bool := fle y x.
(** [x == y]. *)
Definition feq (x y : float) : bool :=
  match fcompare x y with Some Eq => true | _ => false end.

(** The builtins [min(a, b)] and [max(a, b)]: the first argument is kept
    unless the second is strictly smaller (resp. larger). *)
Definition py_min (a b : float) : float := if flt b a then b else a.
Definition py_max (a b : float) : float := if fgt b a then b else a.

(** Rounding of a rational to the nearest integer, ties to even. *)
Definition round_half_even (q : Q) : Z :=
  let f := Qfloor q in
  match Qcompare (q - inject_Z f) (1 # 2) with
  | Lt => f
  | Gt => (f + 1)%Z
  | Eq => if Z.even f then f else (f + 1)%Z
  end.

(** [round(x, 2)]: a finite [x] is written in decimal with two digits
    after the point, correctly rounded from its exact value (ties to
    even), and the decimal string is read back as the nearest float; zeros,
    infinities and NaN round to themselves. *)
Definition py_round2 (x : float) : float :=
  match x with
  | S754_finite s m e =>
      let r := ratio (round_half_even (100 * F2Q false m e)) 100 in
      if s then fopp r else r
  | _ => x
  end.

(** The literals of the source. *)
Definition f0_0 : float := S754_zero false.
Definition f1_0 : float := Eval vm_compute in ratio 1 1.
Definition f0_1 : float := Eval vm_compute in ratio 1 10.
Definition f0_2 : float := Eval vm_compute in ratio 2 10.
Definition f0_3 : float := Eval vm_compute in ratio 3 10.
Definition f0_4 : float := Eval vm_compute in ratio 4 10.
Definition f0_5 : float := Eval vm_compute in ratio 5 10.
Definition f0_6 : float := Eval vm_compute in ratio 6 10.
Definition f0_8 : float := Eval vm_compute in ratio 8 10.

(** The scores [0.80] and [0.79]. *)
Definition f0_80 : float := Eval vm_compute in ratio 80 100.
Definition f0_79 : float := Eval vm_compute in ratio 79 100.

(** A float that satisfies the field constraint [Field(ge=0, le=1)]. *)
Definition in_unit (x : float) : bool := fge x f0_0 && fle x f1_0.

End PyFloat.

Import PyFloat.

(* ================================================================== *)
(** * Exceptions and the Python runtime *)
(* ================================================================== *)

(** The outcome of a block that may raise: the value it returns, or the
    text of the exception. *)
Inductive result (A : Type) : Type :=
| Ok (a : A)
| Raise (msg : pystr).
Arguments Ok {A} a.
Arguments Raise {A} msg.

Definition bind {A B : Type} (r : result A) (k : A -> result B) : result B :=
  match r with
  | Ok a => k a
  | Raise msg => Raise msg
  end.

(** [try: body except Exception as e: handler(e)]. *)
Definition try_except {A : Type} (body : result A) (handler : pystr -> A) : A :=
  match body with
  | Ok a => a
  | Raise msg => handler msg
  end.

Notation "x <- r ;; k" := (bind r (fun x => k))
  (at level 61, r at next level, right associativity).

(** A [datetime], in microseconds since the epoch. *)
Definition datetime := Z.

(** [d + timedelta(days=n)]. *)
Definition plus_days (d : datetime) (n : Z) : datetime :=
  (d + n * 86400000000)%Z.

(** What the code takes from the Python runtime and standard library. *)
Class PyRuntime : Type := {
  (** the table behind [str.lower] outside ASCII *)
  lower_full : pystr -> codepoint -> pystr -> pystr;
  (** the builtin [float] on a string; [None] is a [ValueError] *)
  float_of_str : pystr -> option float;
  (** the decimal text of [hash(s)] *)
  hash_text : pystr -> pystr;
  (** [d.strftime("%Y-%m-%d %H:%M")] *)
  strftime_minutes : datetime -> pystr;
  (** the text of [d.timestamp()] *)
  timestamp_text : datetime -> pystr;
  (** [datetime.fromisoformat]; [None] is a [ValueError] *)
  fromisoformat : pystr -> option datetime
}.

(** [s.lower()] with the runtime's table. *)
Definition py_lower `{PyRuntime} (s : pystr) : pystr := lower lower_full s.

(* ================================================================== *)
(** * models/event_models.py *)
(* ================================================================== *)

Module Models.

Inductive EventPlatform : Type :=
| PEATIX | EVENTBRITE | CONNPASS | MEETUP | DOORKEEPER | JETRO | CHAMBER.

(** The string value of a platform ([EventPlatform] is a [str] enum and
    [Event] stores the value). *)
Definition platform_value (p : EventPlatform) : pystr :=
  match p with
  | PEATIX => str "peatix"
  | EVENTBRITE => str "eventbrite"
  | CONNPASS => str "connpass"
  | MEETUP => str "meetup"
  | DOORKEEPER => str "doorkeeper"
  | JETRO => str "jetro"
  | CHAMBER => str "chamber"
  end.

Record Event : Type := {
  title : pystr;
  description : pystr;
  date : datetime;
  venue : pystr;
  city : pystr;
  source_url : pystr;
  source_platform : EventPlatform;
  price : pystr;
  registration_required : bool
}.

Record RankedEvent : Type := {
  event : Event;
  relevance_score : float;
  matched_keywords : list pystr;
  confidence : float
}.

(** The constructor call [RankedEvent(...)]: both floats carry
    [Field(ge=0, le=1)], and a value outside it raises a validation
    error. *)
Definition new_RankedEvent (e : Event) (score : float)
    (keywords : list pystr) (conf : float) : result RankedEvent :=
  if in_unit score && in_unit conf
  then Ok {| event := e; relevance_score := score;
             matched_keywords := keywords; confidence := conf |}
  else Raise (str "validation error for RankedEvent").

(** A value of [Dict[str, Any]] as the code builds it. *)
Inductive any : Type :=
| AStr (s : pystr)
| AInt (n : Z).

Record RegistrationResult : Type := {
  reg_event : RankedEvent;
  success : bool;
  confirmation_data : option (list (pystr * any));
  qr_code_url : option pystr;
  error_message : option pystr
}.

Record DigestEvent : Type := {
  digest_title : pystr;
  digest_date : pystr;
  digest_venue : pystr;
  digest_description : pystr;
  source_link : pystr;
  digest_relevance_score : float;
  registration_status : pystr
}.

End Models.

Import Models.

(* ================================================================== *)
(** * agents/event_ranker.py *)
(* ================================================================== *)

Module Ranker.

Definition relevance_keywords : list pystr :=
  map str
    [ "startup"; "AI"; "artificial intelligence"; "HR tech"; "expat";
      "business"; "innovation"; "hiring"; "tech"; "technology";
      "entrepreneur"; "venture"; "funding"; "networking"; "machine learning";
      "digital transformation"; "partnership"; "client"; "investment" ]%string.

(** The code points [str.strip] removes. *)
Definition is_space (c : codepoint) : bool :=
  ((9 <=? c) && (c <=? 13) || (28 <=? c) && (c <=? 32) ||
   (c =? 133) || (c =? 160) || (c =? 5760) ||
   (8192 <=? c) && (c <=? 8202) || (c =? 8232) || (c =? 8233) ||
   (c =? 8239) || (c =? 8287) || (c =? 12288))%N.

Fixpoint lstrip (s : pystr) : pystr :=
  match s with
  | c :: rest => if is_space c then lstrip rest else s
  | [] => []
  end.

(** [s.strip()]. *)
Definition strip (s : pystr) : pystr := rev (lstrip (rev (lstrip s))).

(** What [self.run(prompt)] does: it raises, or it returns a response
    whose [content] is a string or [None]. *)
Inductive oracle_reply : Type :=
| RunRaises (msg : pystr)
| Response (content : option pystr).

(** [sort(key=key, reverse=True)]: the stable sort by decreasing key; an
    element goes behind the elements whose key is strictly greater. *)
Section SortReverse.
Variable A : Type.
Variable key : A -> float.

Fixpoint insert_desc (x : A) (l : list A) : list A :=
  match l with
  | [] => [x]
  | y :: l' =>
      if flt (key x) (key y) then y :: insert_desc x l' else x :: l
  end.

Fixpoint sort_reverse (l : list A) : list A :=
  match l with
  | [] => []
  | x :: l' => insert_desc x (sort_reverse l')
  end.

(** The order of the result: [a] may stand before [b]. *)
Definition ge_key (a b : A) : Prop := fge (key a) (key b) = true.
Definition finite_key (a : A) : Prop := is_finite (key a) = true.
End SortReverse.

Section WithRuntime.
Context `{PyRuntime}.

Definition _find_keyword_matches (ev : Event) : list pystr :=
  let text := py_lower (title ev ++ str " " ++ description ev) in
  fold_left
    (fun matches keyword =>
       if contains text (py_lower keyword)
       then matches ++ [keyword] else matches)
    relevance_keywords [].

(** The prompt sent to the oracle embeds the title, [description[:500]]
    and the city; the reply is an input of the model. *)
Definition _get_semantic_score (reply : oracle_reply) : float :=
  match reply with
  | RunRaises _ => f0_5
  | Response None => f0_5
  | Response (Some content) =>
      match float_of_str (strip content) with
      | Some score => py_max f0_0 (py_min f1_0 score)
      | None => f0_5
      end
  end.

Definition target_cities : list pystr :=
  [str "Osaka"; str "Kobe"; str "Kyoto"].

(** The clamped weighted sum of [_calculate_relevance_score], before it
    is rounded. *)
Definition final_score (ev : Event) (semantic_score : float) : float :=
  let keyword_matches := _find_keyword_matches ev in
  let keyword_score :=
    py_min f1_0
      (fmul (of_int (Z.of_nat (List.length keyword_matches))) f0_2) in
  let location_score :=
    if mem (city ev) target_cities then f1_0 else f0_3 in
  let final_score :=
    fadd (fadd (fadd (fmul keyword_score f0_4)
                     (fmul semantic_score f0_3))
               (fmul location_score f0_2))
         f0_1 in
  py_max f0_0 (py_min f1_0 final_score).

(** [_calculate_relevance_score] once the semantic score is known. *)
Definition score_with (ev : Event) (semantic_score : float)
  : result RankedEvent :=
  new_RankedEvent ev (py_round2 (final_score ev semantic_score))
    (_find_keyword_matches ev) semantic_score.

Definition _calculate_relevance_score (ev : Event) (reply : oracle_reply)
  : result RankedEvent :=
  score_with ev (_get_semantic_score reply).

(** The loop of [rank_events]; [oracle i] is the reply to the call made
    for the event at position [i]. *)
Fixpoint rank_loop (oracle : nat -> oracle_reply) (i : nat)
    (events : list Event) (ranked_events : list RankedEvent)
  : list RankedEvent :=
  match events with
  | [] => ranked_events
  | ev :: rest =>
      match _calculate_relevance_score ev (oracle i) with
      | Ok ranked_event =>
          if fge (relevance_score ranked_event) f0_6
          then rank_loop oracle (S i) rest (ranked_events ++ [ranked_event])
          else rank_loop oracle (S i) rest ranked_events
      | Raise _ => rank_loop oracle (S i) rest ranked_events
      end
  end.

Definition rank_events (oracle : nat -> oracle_reply)
    (events : list Event) : list RankedEvent :=
  sort_reverse relevance_score (rank_loop oracle 0 events []).

End WithRuntime.

End Ranker.

(* ================================================================== *)
(** * agents/event_registrar.py *)
(* ================================================================== *)

Module Registrar.

(** ['free', '無料', '0', 'zero', 'no charge']. *)
Definition free_indicators : list pystr :=
  [ str "free"; [28961; 26009]%N; str "0"; str "zero"; str "no charge" ].

Definition qr_server : pystr :=
  str "https://api.qrserver.com/v1/create-qr-code/?size=200x200&data=".

Section WithRuntime.
Context `{PyRuntime}.

Definition _should_register (ranked_event : RankedEvent) : bool :=
  let ev := event ranked_event in
  if flt (relevance_score ranked_event) f0_8 then false
  else
    let price_lower := py_lower (price ev) in
    if negb (any_in free_indicators price_lower) then false
    else if negb (registration_required ev) then false
    else true.

(** The registration handlers only simulate a registration (logging, a
    sleep, the synthesis of the confirmation); [fault] is the exception,
    if any, that this simulation raises. *)
Definition simulate {A : Type} (fault : option pystr) (a : A) : result A :=
  match fault with
  | Some e => Raise e
  | None => Ok a
  end.

Definition failed (ranked_event : RankedEvent) (error_msg : pystr)
  : RegistrationResult :=
  {| reg_event := ranked_event; success := false;
     confirmation_data := None; qr_code_url := None;
     error_message := Some error_msg |}.

Definition _register_connpass (ranked_event : RankedEvent)
    (fault : option pystr) : result RegistrationResult :=
  let url := source_url (event ranked_event) in
  Ok (try_except
        (simulate fault
           {| reg_event := ranked_event; success := true;
              confirmation_data := Some
                [ (str "platform", AStr (str "connpass"));
                  (str "event_id", AStr (str "CONNPASS_" ++ hash_text url));
                  (str "registration_date", AStr (str "2024-01-15"));
                  (str "status", AStr (str "confirmed"));
                  (str "ticket_type", AStr [19968; 33324]%N) ];
              qr_code_url := Some (qr_server ++ url);
              error_message := None |})
        (fun e => failed ranked_event
                    (str "Connpass registration failed: " ++ e))).

Definition _register_peatix (ranked_event : RankedEvent)
    (fault : option pystr) : result RegistrationResult :=
  let url := source_url (event ranked_event) in
  Ok (try_except
        (simulate fault
           {| reg_event := ranked_event; success := true;
              confirmation_data := Some
                [ (str "platform", AStr (str "peatix"));
                  (str "order_id", AStr (str "PEATIX_" ++ hash_text url));
                  (str "ticket_type", AStr (str "Free Admission"));
                  (str "status", AStr (str "confirmed")) ];
              qr_code_url :=
                Some (qr_server ++ str "PEATIX_" ++ hash_text url);
              error_message := None |})
        (fun e => failed ranked_event
                    (str "Peatix registration failed: " ++ e))).

Definition _register_meetup (ranked_event : RankedEvent)
    (fault : option pystr) : result RegistrationResult :=
  let url := source_url (event ranked_event) in
  Ok (try_except
        (simulate fault
           {| reg_event := ranked_event; success := true;
              confirmation_data := Some
                [ (str "platform", AStr (str "meetup"));
                  (str "rsvp_id", AStr (str "MEETUP_" ++ hash_text url));
                  (str "status", AStr (str "yes"));
                  (str "guests", AInt 0) ];
              qr_code_url := None;
              error_message := None |})
        (fun e => failed ranked_event
                    (str "Meetup registration failed: " ++ e))).

(** The generic handler has no [try] of its own: its exception reaches
    the caller. *)
Definition _register_generic (ranked_event : RankedEvent)
    (fault : option pystr) : result RegistrationResult :=
  simulate fault
    {| reg_event := ranked_event; success := true;
       confirmation_data := Some
         [ (str "platform",
            AStr (platform_value (source_platform (event ranked_event))));
           (str "status", AStr (str "auto_registered"));
           (str "registration_date", AStr (str "2024-01-15"));
           (str "note",
            AStr (str "Automatic registration by Raptor Event Scout")) ];
       qr_code_url := None;
       error_message := None |}.

Definition _register_single_event (ranked_event : RankedEvent)
    (fault : option pystr) : RegistrationResult :=
  try_except
    (let platform :=
       platform_value (source_platform (event ranked_event)) in
     if eqb platform (str "connpass")
     then _register_connpass ranked_event fault
     else if eqb platform (str "peatix")
     then _register_peatix ranked_event fault
     else if eqb platform (str "meetup")
     then _register_meetup ranked_event fault
     else _register_generic ranked_event fault)
    (fun e => failed ranked_event (str "Registration error: " ++ e)).

(** The loop of [register_for_events]; [faults i] is what the
    registration attempted for the event at position [i] raises. *)
Fixpoint register_loop (faults : nat -> option pystr) (i : nat)
    (ranked_events : list RankedEvent)
    (results : list RegistrationResult) (registered_count : nat)
  : list RegistrationResult :=
  match ranked_events with
  | [] => results
  | ranked_event :: rest =>
      if (3 <=? registered_count)%nat then results
      else if _should_register ranked_event then
        let result := _register_single_event ranked_event (faults i) in
        register_loop faults (S i) rest (results ++ [result])
          (if success result then S registered_count
           else registered_count)
      else register_loop faults (S i) rest results registered_count
  end.

Definition register_for_events (faults : nat -> option pystr)
    (ranked_events : list RankedEvent) : list RegistrationResult :=
  register_loop faults 0 ranked_events [] 0.

End WithRuntime.

(** The price carries a free indicator: one of the indicators occurs in
    it, case-insensitively. *)
Definition has_free_indicator `{PyRuntime} (p : pystr) : bool :=
  any_in free_indicators (py_lower p).

(** The number of successful results. *)
Definition successes (results : list RegistrationResult) : nat :=
  List.length (filter success results).

(** The invariant the data model states for a [RegistrationResult]:
    exactly one of "succeeded, with confirmation data" and "failed, with an
    error message". *)
Definition confirmed_ok (r : RegistrationResult) : Prop :=
  success r = true /\ confirmation_data r <> None.
Definition failed_with_error (r : RegistrationResult) : Prop :=
  success r = false /\ error_message r <> None.
Definition exactly_one (P Q : Prop) : Prop := (P /\ ~ Q) \/ (~ P /\ Q).
Definition well_formed (r : RegistrationResult) : Prop :=
  exactly_one (confirmed_ok r) (failed_with_error r).

End Registrar.

(* ================================================================== *)
(** * storage/supabase_client.py *)
(* ================================================================== *)

Module Storage.

(** The generated identifier of a row. *)
Definition key := pystr.

(** The row [save_events] sends to the table [events]; the two dates are
    kept as they are before [isoformat()]. *)
Record event_row : Type := {
  row_title : pystr;
  row_description : pystr;
  row_event_date : datetime;
  row_venue : pystr;
  row_city : pystr;
  row_source_url : pystr;
  row_source_platform : pystr;
  row_price : pystr;
  row_created_at : datetime
}.

Definition event_data (now : datetime) (ev : Event) : event_row :=
  {| row_title := title ev;
     row_description := description ev;
     row_event_date := date ev;
     row_venue := venue ev;
     row_city := city ev;
     row_source_url := source_url ev;
     row_source_platform := platform_value (source_platform ev);
     row_price := price ev;
     row_created_at := now |}.

Section SaveEvents.

(** The hosted row store behind [self.supabase]: its state, and the two
    requests [save_events] sends.  A request raises or returns the [id]s
    of the rows in its [data]. *)
Variable store : Type.
(** [table("events").select("id").eq("source_url", u).execute()] *)
Variable select_id : store -> pystr -> result (list key).
(** [table("events").insert(row).execute()] *)
Variable insert : store -> event_row -> store * result (list key).

(** The loop of [save_events]; [clock i] is [datetime.now()] while the
    event at position [i] is saved. *)
Fixpoint save_loop (clock : nat -> datetime) (i : nat) (st : store)
    (events : list Event) (event_ids : list key) : store * list key :=
  match events with
  | [] => (st, event_ids)
  | ev :: rest =>
      match select_id st (source_url ev) with
      | Raise _ => save_loop clock (S i) st rest event_ids
      | Ok (existing_id :: _) =>
          save_loop clock (S i) st rest (event_ids ++ [existing_id])
      | Ok [] =>
          let (st', result) := insert st (event_data (clock i) ev) in
          match result with
          | Raise _ => save_loop clock (S i) st' rest event_ids
          | Ok (new_id :: _) =>
              save_loop clock (S i) st' rest (event_ids ++ [new_id])
          | Ok [] => save_loop clock (S i) st' rest event_ids
          end
      end
  end.

Definition save_events (clock : nat -> datetime) (st : store)
    (events : list Event) : store * list key :=
  save_loop clock 0 st events [].

(** The contract of the store: [rows_of st u] are the keys of the rows
    whose [source_url] is [u], oldest first; a lookup returns them, and
    an insert adds one row, to the rows of its own [source_url] only. *)
Record honours_contract (rows_of : store -> pystr -> list key) : Prop := {
  select_contract :
    forall st u, select_id st u = Ok (rows_of st u);
  insert_contract :
    forall st row, exists st' k,
      insert st row = (st', Ok [k]) /\
      rows_of st' (row_source_url row)
        = rows_of st (row_source_url row) ++ [k] /\
      forall u, u <> row_source_url row -> rows_of st' u = rows_of st u
}.

(** The key a lookup of [u] would return first. *)
Definition first_key (rows_of : store -> pystr -> list key)
    (st : store) (u : pystr) : key :=
  hd [] (rows_of st u).

End SaveEvents.

(** A store that honours the contract: the rows in insertion order, each
    with the key [new_key] generates for it. *)
Section ListStore.
Variable new_key : list (key * event_row) -> event_row -> key.

Definition list_store := list (key * event_row).

Definition list_rows_of (st : list_store) (u : pystr) : list key :=
  map fst (filter (fun r => eqb (row_source_url (snd r)) u) st).

Definition list_select (st : list_store) (u : pystr) : result (list key) :=
  Ok (list_rows_of st u).

Definition list_insert (st : list_store) (row : event_row)
  : list_store * result (list key) :=
  let k := new_key st row in (st ++ [(k, row)], Ok [k]).
End ListStore.

(** Keys drawn from the number of rows. *)
Definition counter_key (st : list (key * event_row)) (_ : event_row) : key :=
  [N.of_nat (List.length st)].

End Storage.

(* ================================================================== *)
(** * agents/notifier.py *)
(* ================================================================== *)

Module Notifier.

(** What the notifier finds around it: whether [self.telegram_bot] was
    created, the outcome of sending a message through it, the two
    environment variables of the e-mail channel, and the outcome of the
    SMTP submission. *)
Record channels : Type := {
  telegram_bot : bool;
  telegram_send : list DigestEvent -> result unit;
  EMAIL_USERNAME : option pystr;
  EMAIL_PASSWORD : option pystr;
  smtp_send : list DigestEvent -> result unit
}.

(** The truth value of [os.getenv(name)]: set, and not empty. *)
Definition truthy (v : option pystr) : bool :=
  match v with
  | Some (_ :: _) => true
  | _ => false
  end.

(** ["✅ Auto-registered"] and ["⏸️ Manual review"]. *)
Definition auto_registered : pystr := 9989%N :: str " Auto-registered".
Definition manual_review : pystr := [9208; 65039]%N ++ str " Manual review".

Definition _send_telegram_digest (env : channels)
    (events : list DigestEvent) : bool :=
  try_except (_ <- telegram_send env events ;; Ok true) (fun _ => false).

Definition _send_email_digest (env : channels)
    (events : list DigestEvent) : bool :=
  try_except
    (if negb (truthy (EMAIL_USERNAME env)) || negb (truthy (EMAIL_PASSWORD env))
     then Ok false
     else _ <- smtp_send env events ;; Ok true)
    (fun _ => false).

Section WithRuntime.
Context `{PyRuntime}.

(** The [DigestEvent] built for one ranked event. *)
Definition digest_event (ranked_event : RankedEvent) : DigestEvent :=
  let ev := event ranked_event in
  {| digest_title := title ev;
     digest_date := strftime_minutes (date ev);
     digest_venue := venue ev;
     digest_description :=
       if (200 <? List.length (description ev))%nat
       then slice_to 200 (description ev) ++ str "..."
       else description ev;
     source_link := source_url ev;
     digest_relevance_score := relevance_score ranked_event;
     registration_status :=
       if fge (relevance_score ranked_event) f0_8
       then auto_registered else manual_review |}.

(** The digest of [ranked_events[:10]]. *)
Definition digest_events (ranked_events : list RankedEvent)
  : list DigestEvent :=
  map digest_event (firstn 10 ranked_events).

Definition send_weekly_digest (env : channels)
    (ranked_events : list RankedEvent) : bool :=
  let digest_events := digest_events ranked_events in
  let telegram_success :=
    if telegram_bot env then _send_telegram_digest env digest_events
    else true in
  let email_success :=
    if truthy (EMAIL_USERNAME env)
    then _send_email_digest env digest_events
    else true in
  telegram_success || email_success.

(** A channel succeeded: it is configured and its send returned [True]. *)
Definition telegram_succeeded (env : channels)
    (ranked_events : list RankedEvent) : bool :=
  telegram_bot env &&
  _send_telegram_digest env (digest_events ranked_events).
Definition email_succeeded (env : channels)
    (ranked_events : list RankedEvent) : bool :=
  truthy (EMAIL_USERNAME env) &&
  _send_email_digest env (digest_events ranked_events).

End WithRuntime.

End Notifier.

(* ================================================================== *)
(** * agents/event_finder.py *)
(* ================================================================== *)

Module Finder.

Definition cities : list pystr := [str "Osaka"; str "Kobe"; str "Kyoto"].
Definition platforms : list EventPlatform := [CONNPASS; PEATIX; MEETUP].

(** What [event.get('fee', '0')] finds under the key: a string, or a JSON
    value of another type (a number, say), given by the text an f-string
    makes of it. *)
Inductive fee_value : Type :=
| FeeStr (s : pystr)
| FeeOther (text : pystr).

(** One object of the [events] array of a Connpass payload: the value
    under each key the parser reads, when the key is there. *)
Record connpass_event : Type := {
  c_title : option pystr;
  c_description : option pystr;
  c_place : option pystr;
  c_address : option pystr;
  c_event_url : option pystr;
  c_started_at : option pystr;
  c_fee : option fee_value
}.

(** The answer to the GET request of [_search_connpass]: the request
    raises, or a response comes back with its status code and what
    [response.json()] and [data.get('events', [])] give (they raise on a
    malformed payload).  An array element is [None] when the body of the
    loop raises on it (it is not an object, or a value under one of the
    other keys has the wrong type). *)
Inductive http_reply : Type :=
| GetRaises (msg : pystr)
| HttpResponse (status_code : Z)
               (events : result (list (option connpass_event))).

(** The places that evaluate [datetime.now()] while one pair is searched.
    Every evaluation is a reading of its own: nothing makes two of them
    agree. *)
Inductive clock_read : Type :=
| ParsedNow (i : nat)       (* [event_date = datetime.now()], element [i] *)
| ParsedLater (i : nat)     (* [datetime.now() + timedelta(days=7)], element [i] *)
| MockDate                  (* [date=datetime.now() + ...] of a mock event *)
| MockStamp.                (* [datetime.now().timestamp()] in its [source_url] *)

Definition clock : Type := clock_read -> datetime.

(** [response.raise_for_status()] raises unless the status is 2xx. *)
Definition is_success (status_code : Z) : bool :=
  (200 <=? status_code)%Z && (status_code <=? 299)%Z.

Definition get {A : Type} (v : option A) (default : A) : A :=
  match v with
  | Some s => s
  | None => default
  end.

(** [s.replace('Z', '+00:00')]. *)
Definition replace_Z (s : pystr) : pystr :=
  flat_map (fun c => if (c =? 90)%N then str "+00:00" else [c]) s.

(** ["Free" if fee == '0' else f"¥{fee}"]: only the string ['0'] equals
    ['0']. *)
Definition fee_price (fee : fee_value) : pystr :=
  match fee with
  | FeeStr s => if eqb s (str "0") then str "Free" else 165%N :: s
  | FeeOther text => 165%N :: text
  end.

(** [try: body finally: closing]: the outcome of the body, unless the
    closing block raises; then its exception is the outcome. *)
Definition try_finally {A : Type} (body : result A) (closing : result unit)
  : result A :=
  match closing with
  | Ok _ => body
  | Raise e => Raise e
  end.

Section WithRuntime.
Context `{PyRuntime}.

Definition city_mapping : list (pystr * list pystr) :=
  [ (str "Osaka", [ [22823; 38442]%N; 333%N :: str "saka"; str "osaka" ]);
    (str "Kobe",  [ [31070; 25144]%N; [107; 333; 98; 101]%N; str "kobe" ]);
    (str "Kyoto", [ [20140; 37117]%N; [107; 121; 333; 116; 111]%N;
                    str "kyoto" ]) ].

Definition _convert_city_name (english_city japanese_address : pystr)
  : pystr :=
  match find (fun entry => any_in (snd entry) (py_lower japanese_address))
             city_mapping with
  | Some (eng_city, _) => eng_city
  | None => english_city
  end.

(** The clock is read twice: for the date, then for the source URL. *)
Definition _get_connpass_mock_events (now : clock) (city : pystr)
  : list Event :=
  [ {| title := str "Tech Community Meetup " ++ city;
       description :=
         str "Join the local tech community in " ++ city ++
         str " for networking and knowledge sharing. Great opportunity to connect with developers and startups.";
       date := plus_days (now MockDate) 10;
       venue := city ++ str " Community Center";
       city := city;
       source_url :=
         str "https://connpass.com/event/" ++ py_lower city ++
         str "-tech-" ++ timestamp_text (now MockStamp);
       source_platform := CONNPASS;
       price := str "Free";
       registration_required := true |} ].

(** The body of the loop over [events[:5]], for the element at position
    [i]. *)
Definition parse_connpass_event (now : clock) (i : nat) (city : pystr)
    (item : connpass_event) : Event :=
  let jp_city := _convert_city_name city (get (c_address item) []) in
  let event_date :=
    match c_started_at item with
    | Some (c :: s) =>
        match fromisoformat (replace_Z (c :: s)) with
        | Some d => d
        | None => plus_days (now (ParsedLater i)) 7
        end
    | _ => now (ParsedNow i)
    end in
  {| title := get (c_title item) (str "No Title");
     description :=
       slice_to 500 (get (c_description item) (str "No Description"));
     date := event_date;
     venue := get (c_place item) (str "Unknown Venue");
     city := jp_city;
     source_url := get (c_event_url item) [];
     source_platform := CONNPASS;
     price := fee_price (get (c_fee item) (FeeStr (str "0")));
     registration_required := true |}.

Fixpoint parse_loop (now : clock) (city : pystr) (i : nat)
    (items : list (option connpass_event)) (parsed_events : list Event)
  : list Event :=
  match items with
  | [] => parsed_events
  | Some item :: rest =>
      parse_loop now city (S i) rest
        (parsed_events ++ [parse_connpass_event now i city item])
  | None :: rest => parse_loop now city (S i) rest parsed_events
  end.

Definition _search_connpass (reply : http_reply) (now : clock)
    (city : pystr) : result (list Event) :=
  Ok (try_except
        (match reply with
         | GetRaises e => Raise e
         | HttpResponse status_code payload =>
             if (status_code =? 403)%Z
             then Ok (_get_connpass_mock_events now city)
             else if negb (is_success status_code)
             then Raise (str "HTTPStatusError")
             else
               events <- payload ;;
               Ok (parse_loop now city 0 (firstn 5 events) [])
         end)
        (fun _ => _get_connpass_mock_events now city)).

(** Peatix and Meetup are not queried: the events are built in place, and
    nothing in the body of the [try] raises. *)
Definition _search_peatix (now : clock) (city : pystr)
  : result (list Event) :=
  Ok (try_except
        (Ok [ {| title := str "AI & Startup Networking in " ++ city;
                 description :=
                   str "Join us for an exciting networking event with AI startups and investors in " ++
                   city ++
                   str ". Great opportunity for partnerships and business development.";
                 date := plus_days (now MockDate) 7;
                 venue := city ++ str " Business Center";
                 city := city;
                 source_url :=
                   str "https://peatix.com/event/" ++ city ++
                   str "-ai-" ++ timestamp_text (now MockStamp);
                 source_platform := PEATIX;
                 price := str "Free";
                 registration_required := true |} ])
        (fun _ => [])).

Definition _search_meetup (now : clock) (city : pystr)
  : result (list Event) :=
  Ok (try_except
        (Ok [ {| title := str "Tech Innovation Meetup " ++ city;
                 description :=
                   str "Monthly tech meetup featuring the latest innovations in AI, HR tech, and business development in " ++
                   city ++ str ".";
                 date := plus_days (now MockDate) 14;
                 venue := city ++ str " Tech Hub";
                 city := city;
                 source_url :=
                   str "https://meetup.com/tech-" ++ city ++ str "-" ++
                   timestamp_text (now MockStamp);
                 source_platform := MEETUP;
                 price := str "Free";
                 registration_required := true |} ])
        (fun _ => [])).

(** The surroundings of one discovery pass: the answer of Connpass to
    the query for each city, the readings of the clock while each pair is
    searched, and the outcome of [http_client.aclose()]. *)
Record world : Type := {
  connpass : pystr -> http_reply;
  now : EventPlatform -> pystr -> clock;
  aclose : result unit
}.

(** The [try] of [_search_platform] turns an exception of a search into
    the empty list. *)
Definition _search_platform (w : world) (platform : EventPlatform)
    (city : pystr) : list Event :=
  try_except
    (match platform with
     | CONNPASS =>
         _search_connpass (connpass w city) (now w CONNPASS city) city
     | PEATIX => _search_peatix (now w PEATIX city) city
     | MEETUP => _search_meetup (now w MEETUP city) city
     | _ => Ok []
     end)
    (fun _ => []).

(** The tasks of [discover_events], city by city and platform by
    platform, in the order [gather] returns their results. *)
Definition pairs : list (EventPlatform * pystr) :=
  flat_map (fun city => map (fun platform => (platform, city)) platforms)
           cities.

(** The loop over the gathered results: an exception is skipped, a
    non-empty list extends [all_events]. *)
Fixpoint collect (results : list (result (list Event)))
    (all_events : list Event) : list Event :=
  match results with
  | [] => all_events
  | Raise _ :: rest => collect rest all_events
  | Ok [] :: rest => collect rest all_events
  | Ok events :: rest => collect rest (all_events ++ events)
  end.

(** [discover_events]: the searches are gathered and collected inside a
    [try] whose handler returns the empty list; the [finally] block closes
    the HTTP client, and an exception of [aclose()] leaves the call in
    place of the value about to be returned. *)
Definition discover_events (w : world) : result (list Event) :=
  try_finally
    (Ok (try_except
           (let results :=
              map (fun pc => Ok (_search_platform w (fst pc) (snd pc)))
                  pairs in
            Ok (collect results []))
           (fun _ => [])))
    (aclose w).

(** The query of a pair failed: the request raised, the status is not
    2xx, or the payload is malformed. *)
Definition query_fails (reply : http_reply) : bool :=
  match reply with
  | GetRaises _ => true
  | HttpResponse status_code payload =>
      negb (is_success status_code) ||
      match payload with Raise _ => true | Ok _ => false end
  end.

End WithRuntime.

End Finder.


(* ================================================================== *)
(** * The scored events behind a ranking *)
(* ================================================================== *)

Module Scored.
Import Ranker.

Section WithRuntime.
Context `{PyRuntime}.

(** The ranked event [_calculate_relevance_score] builds for an event and
    a reply of the oracle. *)
Definition scored_event (ev : Event) (reply : oracle_reply) : RankedEvent :=
  {| event := ev;
     relevance_score :=
       py_round2 (final_score ev (_get_semantic_score reply));
     matched_keywords := _find_keyword_matches ev;
     confidence := _get_semantic_score reply |}.

(** The ranked events of a list of events, in input order; [oracle i]
    answers for the event at position [i]. *)
Fixpoint scored (oracle : nat -> oracle_reply) (i : nat)
    (events : list Event) : list RankedEvent :=
  match events with
  | [] => []
  | ev :: rest => scored_event ev (oracle i) :: scored oracle (S i) rest
  end.

(** [keyword_score] of [_calculate_relevance_score]. *)
Definition keyword_score (ev : Event) : float :=
  py_min f1_0
    (fmul (of_int (Z.of_nat (List.length (_find_keyword_matches ev)))) f0_2).

End WithRuntime.

(** A runtime whose [float] reads every string as [0.25]. *)
Definition quarter_runtime : PyRuntime :=
  {| lower_full := uncased;
     float_of_str := fun _ => Some (ratio 1 4);
     hash_text := fun _ => str "0";
     strftime_minutes := fun _ => str "1970-01-01 00:00";
     timestamp_text := fun _ => str "0.0";
     fromisoformat := fun _ => None |}.

End Scored.

(* ================================================================== *)
(** * Dictionaries *)
(* ================================================================== *)

Module Dict.

(** [d.get(k)] on a dictionary written as the list of its items. *)
Fixpoint get (d : list (pystr * any)) (k : pystr) : option any :=
  match d with
  | [] => None
  | (k', v) :: d' => if eqb k' k then Some v else get d' k
  end.

End Dict.

(* ================================================================== *)
(** * The shape of discovered events *)
(* ================================================================== *)

Module DiscoverySpec.

(** What every event of a Connpass search looks like: tagged Connpass,
    requiring registration, priced ["Free"] or with a yen sign in front. *)
Definition connpass_shaped (e : Event) : Prop :=
  source_platform e = CONNPASS /\
  registration_required e = true /\
  (price e = str "Free" \/ exists fee, price e = 165%N :: fee).

(** The elements of a payload array on which the body of the loop does
    not raise, each with its position; [i] is the position of the first
    element. *)
Fixpoint readable_from (i : nat) (items : list (option Finder.connpass_event))
  : list (nat * Finder.connpass_event) :=
  match items with
  | [] => []
  | Some item :: rest => (i, item) :: readable_from (S i) rest
  | None :: rest => readable_from (S i) rest
  end.

Definition readable (items : list (option Finder.connpass_event))
  : list (nat * Finder.connpass_event) :=
  readable_from 0 items.

(** The event parsed from an element at its position. *)
Definition parsed `{PyRuntime} (now : Finder.clock) (city : pystr)
    (at_position : nat * Finder.connpass_event) : Event :=
  Finder.parse_connpass_event now (fst at_position) city (snd at_position).

End DiscoverySpec.

(* ================================================================== *)
(** * The scoring rule as the specification words it *)
(* ================================================================== *)

Module ScoringSpec.

(** The smaller of two numbers. *)
Definition minimum (a b : float) : float := if fle a b then a else b.

(** [clamp(lo, hi, x)]: [x] brought back into [[lo, hi]]. *)
Definition clamp (lo hi x : float) : float :=
  if fle x lo then lo else if fle hi x then hi else x.

Section WithRuntime.
Context `{PyRuntime}.

(** A keyword occurs in a text, case-insensitively, as a substring. *)
Definition occurs_in (text keyword : pystr) : bool :=
  contains (py_lower text) (py_lower keyword).

(** The number of fixed keywords that occur in
    [title + " " + description]. *)
Definition keyword_count (ev : Event) : nat :=
  List.length
    (filter (occurs_in (title ev ++ str " " ++ description ev))
            Ranker.relevance_keywords).

(** 1.0 in Osaka, Kobe and Kyoto, 0.3 elsewhere. *)
Definition location (ev : Event) : float :=
  if eqb (city ev) (str "Osaka") || eqb (city ev) (str "Kobe") ||
     eqb (city ev) (str "Kyoto")
  then f1_0 else f0_3.
End WithRuntime.

(** The expression
    [clamp(0, 1, 0.4 x min(1.0, 0.2 x k) + 0.3 x s + 0.2 x loc + 0.1)]
    read in exact arithmetic: the weights are the decimal numbers, the
    products and sums those of the rationals. *)
Definition qmin (a b : Q) : Q := if Qle_bool a b then a else b.
Definition qclamp (lo hi x : Q) : Q :=
  if Qle_bool x lo then lo else if Qle_bool hi x then hi else x.

Definition exact_score (k : nat) (s loc : Q) : Q :=
  qclamp 0 1
    ((4 # 10) * qmin 1 ((2 # 10) * inject_Z (Z.of_nat k))
     + (3 # 10) * s + (2 # 10) * loc + (1 # 10)).

(** ... rounded to two decimal places: the number of hundredths nearest
    to it (ties to even), and the float written with these two
    decimals. *)
Definition exact_hundredths (k : nat) (s loc : Q) : Z :=
  round_half_even (100 * exact_score k s loc).

Definition exact_rounded (k : nat) (s loc : float) : float :=
  ratio (exact_hundredths k (value s) (value loc)) 100.

(** The same expression read in binary64 arithmetic: the weights are the
    floats nearest to the decimal numbers, every product and every sum is
    rounded to the nearest float, the sums are taken from left to right,
    and the result is rounded to two decimal places from its exact
    value. *)
Definition binary64_score (k : nat) (s loc : float) : float :=
  py_round2
    (clamp f0_0 f1_0
       (fadd (fadd (fadd (fmul f0_4
                            (minimum f1_0
                               (fmul f0_2 (of_int (Z.of_nat k)))))
                         (fmul f0_3 s))
                   (fmul f0_2 loc))
             f0_1)).

(** What the ranked output promises of each of its events: a score in
    [[0, 1]] that reaches the inclusion threshold 0.6. *)
Definition above_threshold (r : RankedEvent) : Prop :=
  fge (relevance_score r) f0_0 = true /\
  fle (relevance_score r) f1_0 = true /\
  fge (relevance_score r) f0_6 = true.

(** A list of ranked events is sorted non-increasing by score: every
    event has a score at least that of every later one. *)
Definition sorted_by_score_desc (l : list RankedEvent) : Prop :=
  StronglySorted (Ranker.ge_key relevance_score) l.

End ScoringSpec.

(* ================================================================== *)
(** * What a fallback event owes to its city alone *)
(* ================================================================== *)

Module FallbackSpec.


(** The events of all pairs, in the order of the tasks. *)
Definition gathered `{PyRuntime} (w : Finder.world) : list Event :=
  List.concat
    (map (fun pc => Finder._search_platform w (fst pc) (snd pc))
         Finder.pairs).

End FallbackSpec.

(* ================================================================== *)
(** * A runtime to run the model *)
(* ================================================================== *)

(** A runtime for inputs whose code points outside ASCII are uncased: they
    are left as they are by [lower]; no string parses as a float or as a
    date, and the texts of hashes and dates are fixed. *)
Definition plain_runtime : PyRuntime :=
  {| lower_full := uncased;
     float_of_str := fun _ => None;
     hash_text := fun _ => str "0";
     strftime_minutes := fun _ => str "1970-01-01 00:00";
     timestamp_text := fun _ => str "0.0";
     fromisoformat := fun _ => None |}.

(** The same runtime, whose [float] reads the text ["0.05"]. *)
Definition decimal_runtime : PyRuntime :=
  {| lower_full := uncased;
     float_of_str :=
       fun s => if eqb s (str "0.05") then Some (ratio 5 100) else None;
     hash_text := fun _ => str "0";
     strftime_minutes := fun _ => str "1970-01-01 00:00";
     timestamp_text := fun _ => str "0.0";
     fromisoformat := fun _ => None |}.

(** Sample data. *)
Module Samples.

Definition networking_night : Event :=
  {| title := str "AI Startup Networking Night";
     description := str "Meet founders and investors.";
     date := 0%Z;
     venue := str "Innovation Hub";
     city := str "Osaka";
     source_url := str "https://peatix.com/event/1";
     source_platform := PEATIX;
     price := str "Free";
     registration_required := true |}.

(** An event in Osaka that matches five keywords: AI, startup, business,
    networking, tech. *)
Definition business_evening : Event :=
  {| title := str "AI Startup Business Networking";
     description := str "A tech evening.";
     date := 0%Z;
     venue := str "Innovation Hub";
     city := str "Osaka";
     source_url := str "https://peatix.com/event/5";
     source_platform := PEATIX;
     price := str "Free";
     registration_required := true |}.

(** The same event at another price. *)
Definition priced (p : pystr) : Event :=
  {| title := title networking_night;
     description := description networking_night;
     date := date networking_night;
     venue := venue networking_night;
     city := city networking_night;
     source_url := source_url networking_night;
     source_platform := source_platform networking_night;
     price := p;
     registration_required := true |}.

(** At the price ["¥500"]. *)
Definition paid_night : Event := priced (165%N :: str "500").

Definition ranked (ev : Event) (score : float) : RankedEvent :=
  {| event := ev; relevance_score := score;
     matched_keywords := []; confidence := f0_5 |}.

(** Telegram is configured and its send raises; e-mail is not
    configured. *)
Definition telegram_down : Notifier.channels :=
  {| Notifier.telegram_bot := true;
     Notifier.telegram_send := fun _ => Raise (str "network error");
     Notifier.EMAIL_USERNAME := None;
     Notifier.EMAIL_PASSWORD := None;
     Notifier.smtp_send := fun _ => Ok tt |}.

(** No channel is configured. *)
Definition no_channel : Notifier.channels :=
  {| Notifier.telegram_bot := false;
     Notifier.telegram_send := fun _ => Ok tt;
     Notifier.EMAIL_USERNAME := None;
     Notifier.EMAIL_PASSWORD := None;
     Notifier.smtp_send := fun _ => Ok tt |}.

(** Every request to Connpass times out; every reading of the clock gives
    [t], and the HTTP client closes normally. *)
Definition connpass_down_at (t : datetime) : Finder.world :=
  {| Finder.connpass := fun _ => Finder.GetRaises (str "timeout");
     Finder.now := fun _ _ _ => t;
     Finder.aclose := Ok tt |}.

Definition connpass_down : Finder.world := connpass_down_at 0%Z.



(** A paid event whose price holds no zero, with score 0.9. *)
Definition paid_999 : RankedEvent :=
  ranked (priced (165%N :: str "999")) (ratio 9 10).

End Samples.

(* ================================================================== *)
(** * Facts about strings *)
(* ================================================================== *)

Module PyStrFacts.

Lemma eqb_eq (a b : pystr) : eqb a b = true <-> a = b.
Proof.
  revert b; induction a as [|x a IH]; intros [|y b]; simpl;
    try (split; [discriminate | congruence]); try tauto.
  rewrite andb_true_iff, N.eqb_eq, IH.
  split; [intros [-> ->]; reflexivity | intros E; inversion E; auto].
Qed.

Lemma eqb_refl (a : pystr) : eqb a a = true.
Proof. apply eqb_eq; reflexivity. Qed.

Lemma startswith_spec (hay needle : pystr) :
  startswith hay needle = true <-> exists post, hay = needle ++ post.
Proof.
  revert hay; induction needle as [|x needle IH]; intros hay; simpl.
  - split; [intros _; exists hay; reflexivity | destruct hay; reflexivity].
  - destruct hay as [|y hay]; simpl.
    + split; [discriminate | intros [post E]; discriminate].
    + rewrite andb_true_iff, N.eqb_eq, IH. split.
      * intros [-> [post ->]]. exists post. reflexivity.
      * intros [post E]. inversion E; subst. split; [reflexivity|].
        exists post. reflexivity.
Qed.

(** [needle in hay] holds exactly when [hay] is [needle] between two
    strings. *)
Lemma contains_spec (hay needle : pystr) :
  contains hay needle = true <->
  exists pre post, hay = pre ++ needle ++ post.
Proof.
  induction hay as [|y hay IH].
  - cbn [contains]. rewrite orb_false_r, startswith_spec. split.
    + intros [post E]. exists [], post. exact E.
    + intros [pre [post E]]. destruct pre; simpl in E.
      * exists post. exact E.
      * discriminate.
  - cbn [contains]. rewrite orb_true_iff, startswith_spec, IH. split.
    + intros [[post E] | [pre [post E]]].
      * exists [], post. exact E.
      * exists (y :: pre), post. simpl. rewrite E. reflexivity.
    + intros [pre [post E]]. destruct pre as [|z pre]; simpl in E.
      * left. exists post. exact E.
      * right. inversion E; subst. exists pre, post. reflexivity.
Qed.

(** ASCII text without capital letters is its own lowercase, whatever the
    table says outside ASCII. *)
Lemma lower_from_ascii_lowercase (table : pystr -> codepoint -> pystr -> pystr)
    (s before : pystr) :
  forallb (fun c => (c <? 65)%N || (90 <? c)%N && (c <? 128)%N) s = true ->
  lower_from table before s = s.
Proof.
  revert before; induction s as [|c s IH]; intros before Hs; simpl in *.
  - reflexivity.
  - apply andb_true_iff in Hs as [Hc Hs].
    rewrite (IH _ Hs).
    assert (Hlt : (c <? 128)%N = true).
    { apply orb_true_iff in Hc as [Hc | Hc].
      - apply N.ltb_lt in Hc. apply N.ltb_lt. lia.
      - apply andb_true_iff in Hc as [_ Hc]. exact Hc. }
    rewrite Hlt. unfold ascii_lower.
    replace ((65 <=? c)%N && (c <=? 90)%N) with false; [reflexivity|].
    symmetry. apply andb_false_iff.
    apply orb_true_iff in Hc as [Hc | Hc].
    + left. apply N.ltb_lt in Hc. apply N.leb_gt. exact Hc.
    + apply andb_true_iff in Hc as [Hc _]. right.
      apply N.ltb_lt in Hc. apply N.leb_gt. exact Hc.
Qed.

End PyStrFacts.

(* ================================================================== *)
(** * Facts about floats *)
(* ================================================================== *)

Module PyFloatFacts.

(** Multiplication is commutative. *)
Lemma fmul_comm (x y : float) : fmul x y = fmul y x.
Proof.
  unfold fmul.
  destruct x as [sx|sx| |sx mx ex], y as [sy|sy| |sy my ey]; simpl;
    try reflexivity; try (rewrite (xorb_comm sx sy); reflexivity).
  rewrite (xorb_comm sx sy), (Pos.mul_comm mx my), (Z.add_comm ex ey).
  reflexivity.
Qed.

Lemma F2Q_pos (m : positive) (e : Z) : 0 < F2Q false m e.
Proof.
  unfold F2Q, Qlt. destruct e as [|p|p]; cbn [Qnum Qden inject_Z].
  - lia.
  - pose proof (Z.pow_pos_nonneg 2 (Zpos p)). lia.
  - lia.
Qed.

Lemma fcompare_finite (x y : float) :
  is_finite x = true -> is_finite y = true ->
  fcompare x y = Some (value x ?= value y).
Proof.
  destruct x, y; simpl; intros Hx Hy; try discriminate; reflexivity.
Qed.

Lemma flt_fle (x y : float) : flt x y = true -> fle x y = true.
Proof.
  unfold flt, fle. destruct (fcompare x y) as [[| |]|]; congruence.
Qed.

Lemma fle_value (x y : float) :
  is_finite x = true -> is_finite y = true ->
  (fle x y = true <-> value x <= value y).
Proof.
  intros Hx Hy. unfold fle. rewrite (fcompare_finite _ _ Hx Hy).
  rewrite Qle_alt.
  destruct (value x ?= value y); split; congruence.
Qed.

Lemma flt_value (x y : float) :
  is_finite x = true -> is_finite y = true ->
  (flt x y = true <-> value x < value y).
Proof.
  intros Hx Hy. unfold flt. rewrite (fcompare_finite _ _ Hx Hy).
  rewrite Qlt_alt.
  destruct (value x ?= value y); split; congruence.
Qed.

(** On finite numbers the order is total and transitive. *)
Lemma flt_false_fge (x y : float) :
  is_finite x = true -> is_finite y = true ->
  flt x y = false -> fge x y = true.
Proof.
  intros Hx Hy Hlt. unfold fge. apply (fle_value _ _ Hy Hx).
  apply Qnot_lt_le. intros Hv.
  apply (flt_value _ _ Hx Hy) in Hv. congruence.
Qed.

Lemma fle_trans (x y z : float) :
  is_finite x = true -> is_finite y = true -> is_finite z = true ->
  fle x y = true -> fle y z = true -> fle x z = true.
Proof.
  intros Hx Hy Hz Hxy Hyz.
  apply (fle_value _ _ Hx Hz).
  apply Qle_trans with (value y).
  - apply (fle_value _ _ Hx Hy); exact Hxy.
  - apply (fle_value _ _ Hy Hz); exact Hyz.
Qed.

Lemma in_unit_finite (x : float) : in_unit x = true -> is_finite x = true.
Proof.
  destruct x as [s|[|]| |s m e]; simpl; intros Hx;
    try reflexivity; try discriminate.
Qed.

(** [max(0.0, min(1.0, x))] lies in [[0, 1]] for every [x], NaN
    included. *)
Lemma clamp_in_unit (x : float) :
  in_unit (py_max f0_0 (py_min f1_0 x)) = true.
Proof.
  unfold py_max, py_min, fgt.
  destruct (flt x f1_0) eqn:Hx1.
  - destruct (flt f0_0 x) eqn:Hx0.
    + unfold in_unit, fge. rewrite (flt_fle _ _ Hx0), (flt_fle _ _ Hx1).
      reflexivity.
    + reflexivity.
  - reflexivity.
Qed.

Lemma round_half_even_bounds (q : Q) (hi : Z) :
  0 <= q -> q <= inject_Z hi ->
  (0 <= round_half_even q <= hi)%Z.
Proof.
  intros Hlo Hhi. unfold round_half_even.
  assert (Hf0 : (0 <= Qfloor q)%Z).
  { change 0%Z with (Qfloor 0). apply Qfloor_resp_le. exact Hlo. }
  assert (Hf1 : (Qfloor q <= hi)%Z).
  { rewrite <- (Qfloor_Z hi). apply Qfloor_resp_le. exact Hhi. }
  assert (Htop : Qfloor q = hi -> (q - inject_Z (Qfloor q) ?= 1 # 2) = Lt).
  { intros E. rewrite E. apply Qlt_alt. unfold Qminus.
    apply Qle_lt_trans with (q + - q).
    - apply Qplus_le_r, Qopp_le_compat. exact Hhi.
    - rewrite Qplus_opp_r. reflexivity. }
  destruct (Z.eq_dec (Qfloor q) hi) as [E | NE].
  - rewrite (Htop E). lia.
  - destruct (q - inject_Z (Qfloor q) ?= 1 # 2);
      [destruct (Z.even (Qfloor q))| |]; lia.
Qed.

Lemma ratio_hundredths_in_unit (n : Z) :
  (0 <= n <= 100)%Z -> in_unit (ratio n 100) = true.
Proof.
  intros Hn.
  assert (Hall : forallb (fun k => in_unit (ratio (Z.of_nat k) 100))
                         (seq 0 101) = true) by (vm_compute; reflexivity).
  rewrite forallb_forall in Hall.
  specialize (Hall (Z.to_nat n)).
  rewrite Z2Nat.id in Hall by lia.
  apply Hall. apply in_seq. lia.
Qed.

(** [round(x, 2)] of a float in [[0, 1]] is in [[0, 1]]. *)
Lemma round2_in_unit (x : float) :
  in_unit x = true -> in_unit (py_round2 x) = true.
Proof.
  intros Hx. destruct x as [s|s| |s m e]; try exact Hx.
  pose proof (F2Q_pos m e) as Hpos.
  unfold in_unit in Hx. apply andb_true_iff in Hx as [H0 H1].
  unfold fge in H0.
  apply (fle_value f0_0 (S754_finite s m e) eq_refl eq_refl) in H0.
  apply (fle_value (S754_finite s m e) f1_0 eq_refl eq_refl) in H1.
  simpl in H0, H1.
  destruct s.
  - exfalso. unfold F2Q in H0, Hpos.
    apply (Qlt_not_le _ _ Hpos).
    apply Qopp_le_compat in H0. rewrite Qopp_involutive in H0. exact H0.
  - cbn [py_round2]. apply ratio_hundredths_in_unit.
    apply round_half_even_bounds.
    + apply Qmult_le_0_compat; [discriminate | apply Qlt_le_weak; exact Hpos].
    + setoid_replace (inject_Z 100) with (100 * 1) by reflexivity.
      apply Qmult_le_l; [reflexivity|].
      apply Qle_trans with (1 := H1). discriminate.
Qed.

End PyFloatFacts.

(* ================================================================== *)
(** * Signs of sums and products *)
(* ================================================================== *)

Module FloatSign.
Import PyFloatFacts.

Lemma shr_1_nonneg (mrs : shr_record) :
  (0 <= shr_m mrs)%Z -> (0 <= shr_m (shr_1 mrs))%Z.
Proof.
  destruct mrs as [m r s]. simpl.
  destruct m as [|[p|p|]|[p|p|]]; simpl; lia.
Qed.

Lemma iter_pos_nonneg (p : positive) (mrs : shr_record) :
  (0 <= shr_m mrs)%Z -> (0 <= shr_m (iter_pos shr_1 p mrs))%Z.
Proof.
  revert mrs; induction p as [p IH|p IH|]; intros mrs Hm; simpl.
  - apply IH, IH, shr_1_nonneg, Hm.
  - apply IH, IH, Hm.
  - apply shr_1_nonneg, Hm.
Qed.

Lemma shr_fexp_nonneg (m e : Z) (l : location) :
  (0 <= m)%Z -> (0 <= shr_m (fst (shr_fexp prec emax m e l)))%Z.
Proof.
  intros Hm. unfold shr_fexp, shr.
  assert (H0 : (0 <= shr_m (shr_record_of_loc m l))%Z)
    by (destruct l as [|[| |]]; exact Hm).
  destruct (fexp prec emax (Zdigits2 m + e) - e)%Z; simpl; auto.
  apply iter_pos_nonneg, H0.
Qed.

Lemma round_nearest_even_nonneg (m : Z) (l : location) :
  (0 <= m)%Z -> (0 <= round_nearest_even m l)%Z.
Proof.
  intros Hm. destruct l as [|[| |]]; simpl; try lia.
  destruct (Z.even m); lia.
Qed.

(** Rounding a non-negative mantissa with a positive sign never gives
    NaN or a negative number. *)
Lemma binary_round_aux_nonneg (mx ex : Z) (lx : location) :
  (0 <= mx)%Z -> nonneg (binary_round_aux prec emax false mx ex lx) = true.
Proof.
  intros Hm. unfold binary_round_aux.
  pose proof (shr_fexp_nonneg ex lx Hm) as H1.
  destruct (shr_fexp prec emax mx ex lx) as [mrs' e']. simpl in H1.
  pose proof (shr_fexp_nonneg e' loc_Exact
                (round_nearest_even_nonneg (loc_of_shr_record mrs') H1)) as H2.
  destruct (shr_fexp prec emax _ e' loc_Exact) as [mrs'' e'']. simpl in H2.
  destruct (shr_m mrs'') as [|p|p]; try reflexivity.
  - destruct (e'' <=? emax - prec)%Z; reflexivity.
  - lia.
Qed.

Lemma fmul_nonneg (x y : float) :
  fin_nonneg x = true -> fin_nonneg y = true -> nonneg (fmul x y) = true.
Proof.
  destruct x as [sx|sx| |[|] mx ex], y as [sy|sy| |[|] my ey]; simpl;
    intros Hx Hy; try discriminate; try reflexivity.
  apply binary_round_aux_nonneg. lia.
Qed.

Lemma fadd_nonneg (x y : float) :
  nonneg x = true -> nonneg y = true -> nonneg (fadd x y) = true.
Proof.
  destruct x as [sx|[|]| |[|] mx ex], y as [sy|[|]| |[|] my ey]; simpl;
    intros Hx Hy; try discriminate; try reflexivity.
  - destruct sx, sy; reflexivity.
  - unfold binary_normalize, binary_round.
    destruct (shl_align _ _ _) as [mz ez].
    apply binary_round_aux_nonneg. lia.
Qed.

Lemma in_unit_fin_nonneg (x : float) :
  in_unit x = true -> fin_nonneg x = true.
Proof.
  intros Hx. destruct x as [s|s| |[|] m e]; try reflexivity;
    try (apply in_unit_finite in Hx; discriminate).
  exfalso. unfold in_unit in Hx. apply andb_true_iff in Hx as [H0 _].
  unfold fge in H0.
  apply (fle_value f0_0 (S754_finite true m e) eq_refl eq_refl) in H0.
  pose proof (F2Q_pos m e) as Hpos. simpl in H0. unfold F2Q in H0, Hpos.
  apply (Qlt_not_le _ _ Hpos).
  apply Qopp_le_compat in H0. rewrite Qopp_involutive in H0. exact H0.
Qed.

Lemma fin_nonneg_nonneg (x : float) : fin_nonneg x = true -> nonneg x = true.
Proof. destruct x as [s|s| |[|] m e]; simpl; congruence. Qed.

(** On a number that is not negative and not NaN, the two builtins
    compute the clamp of the specification. *)
Lemma py_clamp_is_clamp (x : float) :
  nonneg x = true ->
  py_max f0_0 (py_min f1_0 x) = ScoringSpec.clamp f0_0 f1_0 x.
Proof.
  destruct x as [[|]|[|]| |[|] m e]; simpl; intros Hx;
    try discriminate; try reflexivity.
  set (x := S754_finite false m e).
  assert (Hpos : flt f0_0 x = true).
  { apply (flt_value f0_0 x eq_refl eq_refl). apply F2Q_pos. }
  assert (Hnle : fle x f0_0 = false).
  { destruct (fle x f0_0) eqn:E; [|reflexivity].
    apply (fle_value x f0_0 eq_refl eq_refl) in E.
    exfalso. apply (Qlt_not_le _ _ (F2Q_pos m e)). exact E. }
  unfold ScoringSpec.clamp, py_max, py_min, fgt. rewrite Hnle.
  destruct (flt x f1_0) eqn:Hlt.
  - rewrite Hpos.
    destruct (fle f1_0 x) eqn:Hle; [|reflexivity].
    exfalso.
    apply (flt_value x f1_0 eq_refl eq_refl) in Hlt.
    apply (fle_value f1_0 x eq_refl eq_refl) in Hle.
    apply (Qlt_not_le _ _ Hlt Hle).
  - change (flt f0_0 f1_0) with true. cbv iota.
    apply (flt_false_fge x f1_0 eq_refl eq_refl) in Hlt.
    unfold fge in Hlt. rewrite Hlt. reflexivity.
Qed.

End FloatSign.

(* ================================================================== *)
(** * The comparison agrees with [SFcompare] on binary64 numbers *)
(* ================================================================== *)

Module FloatOrder.
Import PyFloatFacts.

Lemma digits2_pos_bounds (m : positive) :
  (2 ^ (Zpos (digits2_pos m) - 1) <= Zpos m < 2 ^ Zpos (digits2_pos m))%Z.
Proof.
  induction m as [m IH|m IH|]; cbn [digits2_pos].
  - rewrite Pos2Z.inj_succ.
    replace (Z.succ (Zpos (digits2_pos m)) - 1)%Z
      with (Z.succ (Zpos (digits2_pos m) - 1))%Z by lia.
    rewrite !Z.pow_succ_r by lia. lia.
  - rewrite Pos2Z.inj_succ.
    replace (Z.succ (Zpos (digits2_pos m)) - 1)%Z
      with (Z.succ (Zpos (digits2_pos m) - 1))%Z by lia.
    rewrite !Z.pow_succ_r by lia. lia.
  - simpl. lia.
Qed.

(** A canonical mantissa has 53 digits, or fewer at the least exponent. *)
Lemma bounded_cases (m : positive) (e : Z) :
  bounded prec emax m e = true ->
  (-1074 <= e)%Z /\
  (Zpos m < 2 ^ 53)%Z /\
  (e = (-1074)%Z \/ (2 ^ 52 <= Zpos m)%Z).
Proof.
  unfold bounded, canonical_mantissa, fexp, emin, prec, emax.
  intros Hb. apply andb_true_iff in Hb as [Hc _].
  apply Z.eqb_eq in Hc.
  pose proof (digits2_pos_bounds m) as [Hlo Hhi].
  set (d := Zpos (digits2_pos m)) in *.
  assert (Hd : (d <= 53)%Z) by lia.
  split; [lia|]. split.
  - apply Z.lt_le_trans with (1 := Hhi).
    apply Z.pow_le_mono_r; lia.
  - destruct (Z.eq_dec e (-1074)) as [He | He]; [left; exact He | right].
    assert (d = 53%Z) by lia.
    replace 52%Z with (d - 1)%Z by lia. exact Hlo.
Qed.

(** The value of a positive number, scaled to an integer. *)
Lemma F2Q_scaled (m : positive) (e : Z) :
  (-1074 <= e)%Z ->
  F2Q false m e * inject_Z (2 ^ 1074)
  == inject_Z (Zpos m * 2 ^ (e + 1074)).
Proof.
  intros He. unfold F2Q.
  destruct e as [|p|p].
  - rewrite <- inject_Z_mult. reflexivity.
  - rewrite <- inject_Z_mult.
    rewrite Z.pow_add_r by lia.
    rewrite Z.mul_assoc. reflexivity.
  - unfold Qeq, Qmult, inject_Z. cbn [Qnum Qden].
    rewrite Pos.mul_1_r, Z.mul_1_r.
    rewrite Pos2Z.inj_pow.
    replace (2 ^ 1074)%Z with (2 ^ (Zneg p + 1074) * 2 ^ Zpos p)%Z.
    + ring.
    + rewrite <- Z.pow_add_r by lia. f_equal. lia.
Qed.

Lemma Qcompare_scaled (a b : Q) (za zb k : Z) :
  (0 < k)%Z ->
  a * inject_Z k == inject_Z za -> b * inject_Z k == inject_Z zb ->
  (a ?= b) = (za ?= zb)%Z.
Proof.
  intros Hk Ha Hb.
  assert (Hk' : 0 < inject_Z k) by (unfold Qlt; simpl; lia).
  destruct (Z.compare_spec za zb) as [E | L | G].
  - apply Qeq_alt. apply (Qmult_inj_r _ _ (inject_Z k)).
    + intros H0. rewrite H0 in Hk'. apply (Qlt_irrefl _ Hk').
    + rewrite Ha, Hb, E. reflexivity.
  - apply Qlt_alt. apply (Qmult_lt_r _ _ (inject_Z k) Hk').
    rewrite Ha, Hb. rewrite <- Zlt_Qlt. exact L.
  - apply Qgt_alt. apply (Qmult_lt_r _ _ (inject_Z k) Hk').
    rewrite Ha, Hb. rewrite <- Zlt_Qlt. exact G.
Qed.

Lemma scaled_lt (m1 m2 : positive) (e1 e2 : Z) :
  (-1074 <= e1 < e2)%Z -> (Zpos m1 < 2 ^ 53)%Z -> (2 ^ 52 <= Zpos m2)%Z ->
  (Zpos m1 * 2 ^ (e1 + 1074) < Zpos m2 * 2 ^ (e2 + 1074))%Z.
Proof.
  intros He H1 H2.
  assert (Hp : (0 < 2 ^ (e1 + 1074))%Z) by (apply Z.pow_pos_nonneg; lia).
  apply Z.lt_le_trans with (2 ^ 53 * 2 ^ (e1 + 1074))%Z.
  - apply Z.mul_lt_mono_pos_r; assumption.
  - apply Z.le_trans with (2 ^ 52 * 2 ^ (e2 + 1074))%Z.
    + replace (2 ^ 53)%Z with (2 ^ 52 * 2 ^ 1)%Z by reflexivity.
      rewrite <- Z.mul_assoc, <- Z.pow_add_r by lia.
      apply Z.mul_le_mono_nonneg_l; [lia|].
      apply Z.pow_le_mono_r; lia.
    + apply Z.mul_le_mono_nonneg_r; [|exact H2].
      apply Z.pow_nonneg. lia.
Qed.

(** Positive canonical numbers compare by exponent, then by mantissa. *)
Lemma compare_positive (m1 m2 : positive) (e1 e2 : Z) :
  bounded prec emax m1 e1 = true -> bounded prec emax m2 e2 = true ->
  (F2Q false m1 e1 ?= F2Q false m2 e2)
  = match (e1 ?= e2)%Z with
    | Lt => Lt
    | Gt => Gt
    | Eq => Pos.compare_cont Eq m1 m2
    end.
Proof.
  intros Hb1 Hb2.
  destruct (bounded_cases _ _ Hb1) as [He1 [Hm1 Hn1]].
  destruct (bounded_cases _ _ Hb2) as [He2 [Hm2 Hn2]].
  rewrite (Qcompare_scaled (k := 2 ^ 1074) eq_refl
             (F2Q_scaled m1 He1) (F2Q_scaled m2 He2)).
  destruct (Z.compare_spec e1 e2) as [E | L | G].
  - subst e2.
    assert (Hp : (0 < 2 ^ (e1 + 1074))%Z) by (apply Z.pow_pos_nonneg; lia).
    change (Pos.compare_cont Eq m1 m2) with (Zpos m1 ?= Zpos m2)%Z.
    destruct (Z.compare_spec (Zpos m1) (Zpos m2)) as [E | L | G].
    + rewrite E. apply Z.compare_refl.
    + apply Z.compare_lt_iff. apply Z.mul_lt_mono_pos_r; assumption.
    + apply Z.compare_gt_iff. apply Z.mul_lt_mono_pos_r; assumption.
  - apply Z.compare_lt_iff. apply scaled_lt; [lia | exact Hm1 |].
    destruct Hn2 as [-> | H]; [lia | exact H].
  - apply Z.compare_gt_iff. apply scaled_lt; [lia | exact Hm2 |].
    destruct Hn1 as [-> | H]; [lia | exact H].
Qed.

Lemma Qcompare_opp (a b : Q) : (- a ?= - b) = CompOpp (a ?= b).
Proof.
  unfold Qcompare, Qopp. cbn [Qnum Qden].
  rewrite !Z.mul_opp_l, Z.compare_opp. apply Z.compare_antisym.
Qed.

(** On the numbers of binary64 the comparison by exact value is the
    comparison of the standard library's specification. *)
Theorem fcompare_SFcompare (x y : float) :
  valid_binary prec emax x = true -> valid_binary prec emax y = true ->
  fcompare x y = SFcompare x y.
Proof.
  destruct x as [sx|sx| |sx mx ex], y as [sy|sy| |sy my ey];
    cbn [valid_binary fcompare SFcompare value]; intros Hx Hy;
    try reflexivity.
  - f_equal. pose proof (F2Q_pos my ey) as Hp. destruct sy; cbn [F2Q].
    + apply Qgt_alt. unfold F2Q in Hp.
      apply Qopp_lt_compat in Hp. exact Hp.
    + apply Qlt_alt. exact Hp.
  - f_equal. pose proof (F2Q_pos mx ex) as Hp. destruct sx; cbn [F2Q].
    + apply Qlt_alt. unfold F2Q in Hp.
      apply Qopp_lt_compat in Hp. exact Hp.
    + apply Qgt_alt. exact Hp.
  - f_equal.
    pose proof (F2Q_pos mx ex) as Hpx. pose proof (F2Q_pos my ey) as Hpy.
    destruct sx, sy.
    + change (F2Q true mx ex) with (- F2Q false mx ex).
      change (F2Q true my ey) with (- F2Q false my ey).
      rewrite Qcompare_opp, compare_positive by assumption.
      destruct (ex ?= ey)%Z; reflexivity.
    + apply Qlt_alt. change (F2Q true mx ex) with (- F2Q false mx ex).
      apply Qlt_trans with 0; [|exact Hpy].
      apply Qopp_lt_compat in Hpx. exact Hpx.
    + apply Qgt_alt. change (F2Q true my ey) with (- F2Q false my ey).
      apply Qlt_trans with 0; [|exact Hpx].
      apply Qopp_lt_compat in Hpy. exact Hpy.
    + apply compare_positive; assumption.
Qed.

End FloatOrder.

(* ================================================================== *)
(** * Scoring: the score formula, its bounds, the ranked output *)
(* ================================================================== *)

Module RankerFacts.
Import PyStrFacts PyFloatFacts FloatSign Ranker ScoringSpec.

Lemma fold_append_filter (A : Type) (p : A -> bool) (l acc : list A) :
  fold_left (fun acc x => if p x then acc ++ [x] else acc) l acc
  = acc ++ filter p l.
Proof.
  revert acc; induction l as [|x l IH]; intros acc; simpl.
  - rewrite app_nil_r. reflexivity.
  - rewrite IH. destruct (p x); [rewrite <- app_assoc|]; reflexivity.
Qed.

(** The sorted list has the elements of the unsorted one. *)
Section SortReverse.
Variable A : Type.
Variable key : A -> float.


Lemma insert_desc_Forall (P : A -> Prop) (x : A) (l : list A) :
  P x -> Forall P l -> Forall P (insert_desc key x l).
Proof.
  intros Hx Hl. induction Hl as [|y l Hy Hl IH]; simpl.
  - constructor; [exact Hx | constructor].
  - destruct (flt (key x) (key y)); repeat constructor; assumption.
Qed.

Lemma sort_reverse_Forall (P : A -> Prop) (l : list A) :
  Forall P l -> Forall P (sort_reverse key l).
Proof.
  intros Hl. induction Hl as [|x l Hx Hl IH]; simpl.
  - constructor.
  - apply insert_desc_Forall; assumption.
Qed.

Lemma insert_desc_permutation (x : A) (l : list A) :
  Permutation (x :: l) (insert_desc key x l).
Proof.
  induction l as [|y l IH]; simpl.
  - apply Permutation_refl.
  - destruct (flt (key x) (key y)).
    + apply perm_trans with (y :: x :: l); [apply perm_swap|].
      apply perm_skip. exact IH.
    + apply Permutation_refl.
Qed.

(** Sorting keeps the elements. *)
Lemma sort_reverse_permutation (l : list A) :
  Permutation l (sort_reverse key l).
Proof.
  induction l as [|x l IH]; simpl.
  - apply perm_nil.
  - apply perm_trans with (x :: sort_reverse key l).
    + apply perm_skip. exact IH.
    + apply insert_desc_permutation.
Qed.

Lemma insert_desc_sorted (x : A) (l : list A) :
  finite_key key x -> Forall (finite_key key) l ->
  StronglySorted (ge_key key) l ->
  StronglySorted (ge_key key) (insert_desc key x l).
Proof.
  intros Hx Hfin Hs. induction Hs as [|y l Hs IH Hy]; simpl.
  - repeat constructor.
  - inversion Hfin as [|? ? Hfy Hfl]; subst.
    destruct (flt (key x) (key y)) eqn:Hlt.
    + constructor; [apply IH; exact Hfl|].
      apply insert_desc_Forall; [|exact Hy].
      apply flt_fle. exact Hlt.
    + assert (Hxy : ge_key key x y)
        by (apply flt_false_fge; assumption).
      constructor; [constructor; assumption|].
      constructor; [exact Hxy|].
      rewrite Forall_forall in Hy, Hfl |- *. intros z Hz.
      apply (fle_trans (key z) (key y) (key x));
        [apply Hfl, Hz | exact Hfy | exact Hx | apply Hy, Hz | exact Hxy].
Qed.

Lemma sort_reverse_sorted (l : list A) :
  Forall (finite_key key) l ->
  StronglySorted (ge_key key) (sort_reverse key l).
Proof.
  intros Hfin. induction Hfin as [|x l Hx Hl IH]; simpl.
  - constructor.
  - apply insert_desc_sorted; [exact Hx | | exact IH].
    apply sort_reverse_Forall. exact Hl.
Qed.
End SortReverse.

Section WithRuntime.
Context `{PyRuntime}.

Lemma find_keyword_matches_filter (ev : Event) :
  _find_keyword_matches ev
  = filter (occurs_in (title ev ++ str " " ++ description ev))
           relevance_keywords.
Proof.
  unfold _find_keyword_matches. rewrite fold_append_filter. reflexivity.
Qed.

Lemma keyword_matches_count (ev : Event) :
  List.length (_find_keyword_matches ev) = keyword_count ev.
Proof. rewrite find_keyword_matches_filter. reflexivity. Qed.

Lemma keyword_count_le (ev : Event) : (keyword_count ev <= 19)%nat.
Proof. unfold keyword_count. apply (filter_length_le _ relevance_keywords). Qed.

Lemma location_score_spec (ev : Event) :
  (if mem (city ev) target_cities then f1_0 else f0_3) = location ev.
Proof.
  unfold location, mem, target_cities. simpl.
  destruct (eqb (city ev) (str "Osaka")), (eqb (city ev) (str "Kobe")),
    (eqb (city ev) (str "Kyoto")); reflexivity.
Qed.

Lemma semantic_score_in_unit (reply : oracle_reply) :
  in_unit (_get_semantic_score reply) = true.
Proof.
  destruct reply as [msg|[content|]]; simpl; try reflexivity.
  destruct (float_of_str (strip content)); [apply clamp_in_unit | reflexivity].
Qed.
End WithRuntime.

(** The keyword score for each possible number of matches. *)
Lemma keyword_score_spec (k : nat) :
  (k <= 19)%nat ->
  py_min f1_0 (fmul (of_int (Z.of_nat k)) f0_2)
    = minimum f1_0 (fmul f0_2 (of_int (Z.of_nat k))) /\
  fin_nonneg (minimum f1_0 (fmul f0_2 (of_int (Z.of_nat k)))) = true.
Proof.
  intros Hk.
  do 20 (destruct k as [|k]; [vm_compute; split; reflexivity|]).
  lia.
Qed.

Lemma location_fin_nonneg `{PyRuntime} (ev : Event) :
  fin_nonneg (location ev) = true.
Proof. unfold location. destruct (_ || _); reflexivity. Qed.

(** The weighted sum is never NaN and never negative. *)
Lemma weighted_sum_nonneg (kw s loc : float) :
  fin_nonneg kw = true -> in_unit s = true -> fin_nonneg loc = true ->
  nonneg (fadd (fadd (fadd (fmul f0_4 kw) (fmul f0_3 s)) (fmul f0_2 loc))
               f0_1) = true.
Proof.
  intros Hkw Hs Hloc.
  repeat apply fadd_nonneg; try reflexivity;
    apply fmul_nonneg; try reflexivity; try assumption.
  apply in_unit_fin_nonneg, Hs.
Qed.

(** The rounded clamped sum of the code is the expression of the
    specification in binary64 arithmetic. *)
Lemma final_score_spec `{PyRuntime} (ev : Event) (s : float) :
  in_unit s = true ->
  py_round2 (final_score ev s)
  = binary64_score (keyword_count ev) s (location ev).
Proof.
  intros Hs. unfold final_score, binary64_score.
  rewrite keyword_matches_count, location_score_spec.
  destruct (keyword_score_spec (keyword_count_le ev)) as [Hkw Hfin].
  rewrite Hkw.
  rewrite (fmul_comm (minimum _ _) f0_4), (fmul_comm s f0_3),
    (fmul_comm (location ev) f0_2).
  rewrite py_clamp_is_clamp; [reflexivity|].
  apply weighted_sum_nonneg; [exact Hfin | exact Hs | apply location_fin_nonneg].
Qed.

Lemma final_score_in_unit `{PyRuntime} (ev : Event) (s : float) :
  in_unit (py_round2 (final_score ev s)) = true.
Proof. apply round2_in_unit. unfold final_score. apply clamp_in_unit. Qed.

(** The body of [_calculate_relevance_score]. *)
Lemma calculate_relevance_score_eq `{PyRuntime} (ev : Event)
    (reply : oracle_reply) :
  _calculate_relevance_score ev reply
  = new_RankedEvent ev
      (py_round2 (final_score ev (_get_semantic_score reply)))
      (_find_keyword_matches ev) (_get_semantic_score reply).
Proof. reflexivity. Qed.

(** Scoring never fails validation: [_calculate_relevance_score] returns
    a ranked event for every event and every reply of the oracle. *)
Lemma calculate_relevance_score_returns `{PyRuntime} (ev : Event)
    (reply : oracle_reply) :
  _calculate_relevance_score ev reply
  = Ok {| event := ev;
          relevance_score :=
            py_round2 (final_score ev (_get_semantic_score reply));
          matched_keywords := _find_keyword_matches ev;
          confidence := _get_semantic_score reply |}.
Proof.
  rewrite calculate_relevance_score_eq. unfold new_RankedEvent.
  rewrite final_score_in_unit, semantic_score_in_unit. reflexivity.
Qed.

(** Validation makes every ranked event carry a score in [[0, 1]]. *)
Lemma calculate_relevance_score_valid `{PyRuntime} (ev : Event)
    (reply : oracle_reply) :
  exists r, _calculate_relevance_score ev reply = Ok r /\
            in_unit (relevance_score r) = true.
Proof.
  rewrite calculate_relevance_score_returns.
  generalize (final_score_in_unit ev (_get_semantic_score reply)).
  generalize (py_round2 (final_score ev (_get_semantic_score reply))).
  generalize (_find_keyword_matches ev).
  generalize (_get_semantic_score reply).
  intros c kws x Hx. eexists. split; [reflexivity | exact Hx].
Qed.

Lemma rank_loop_cons `{PyRuntime} (oracle : nat -> oracle_reply) (i : nat)
    (ev : Event) (rest : list Event) (acc : list RankedEvent) :
  rank_loop oracle i (ev :: rest) acc
  = match _calculate_relevance_score ev (oracle i) with
    | Ok ranked_event =>
        if fge (relevance_score ranked_event) f0_6
        then rank_loop oracle (S i) rest (acc ++ [ranked_event])
        else rank_loop oracle (S i) rest acc
    | Raise _ => rank_loop oracle (S i) rest acc
    end.
Proof. reflexivity. Qed.

Lemma rank_loop_above_threshold `{PyRuntime} (oracle : nat -> oracle_reply)
    (events : list Event) (i : nat) (acc : list RankedEvent) :
  Forall above_threshold acc ->
  Forall above_threshold (rank_loop oracle i events acc).
Proof.
  revert i acc; induction events as [|ev rest IH]; intros i acc Hacc.
  - exact Hacc.
  - rewrite rank_loop_cons.
    destruct (calculate_relevance_score_valid ev (oracle i)) as [r [E Hr]].
    rewrite E.
    destruct (fge (relevance_score r) f0_6) eqn:Hge; apply IH; auto.
    apply Forall_app; split; [exact Hacc|].
    constructor; [|constructor].
    unfold in_unit in Hr. apply andb_true_iff in Hr as [H0 H1].
    repeat split; assumption.
Qed.

Lemma above_threshold_finite (l : list RankedEvent) :
  Forall above_threshold l ->
  Forall (finite_key relevance_score) l.
Proof.
  apply Forall_impl. intros r [H0 [H1 _]].
  apply in_unit_finite. unfold in_unit. rewrite H0, H1. reflexivity.
Qed.

End RankerFacts.

(* ================================================================== *)
(** * Registration: eligibility, the cap, the shape of the results *)
(* ================================================================== *)

Module RegistrarFacts.
Import PyStrFacts PyFloatFacts Registrar.

(** Numbers that are equal compare alike with a finite number. *)
Lemma feq_flt (x c d : float) :
  is_finite c = true -> is_finite d = true ->
  feq x c = true -> flt x d = flt c d.
Proof.
  intros Hc Hd Heq.
  assert (Hx : is_finite x = true).
  { destruct x as [s|[|]| |s m e], c as [s'|s'| |s' m' e'];
      try reflexivity; try discriminate. }
  unfold feq in Heq. rewrite (fcompare_finite _ _ Hx Hc) in Heq.
  assert (Hv : value x == value c).
  { apply Qeq_alt. destruct (value x ?= value c); congruence. }
  unfold flt. rewrite (fcompare_finite _ _ Hx Hd), (fcompare_finite _ _ Hc Hd).
  rewrite Hv. reflexivity.
Qed.

Lemma successes_app (l : list RegistrationResult) (r : RegistrationResult) :
  successes (l ++ [r]) = (successes l + if success r then 1 else 0)%nat.
Proof.
  unfold successes. rewrite filter_app, length_app. simpl.
  destruct (success r); reflexivity.
Qed.

Section WithRuntime.
Context `{PyRuntime}.

Lemma should_register_eq (ranked_event : RankedEvent) :
  _should_register ranked_event
  = negb (flt (relevance_score ranked_event) f0_8) &&
    has_free_indicator (price (event ranked_event)) &&
    registration_required (event ranked_event).
Proof.
  unfold _should_register, has_free_indicator.
  destruct (flt (relevance_score ranked_event) f0_8); [reflexivity|].
  destruct (any_in free_indicators _); [|reflexivity].
  destruct (registration_required _); reflexivity.
Qed.

Lemma register_single_event_well_formed (ranked_event : RankedEvent)
    (fault : option pystr) :
  well_formed (_register_single_event ranked_event fault).
Proof.
  unfold _register_single_event, _register_connpass, _register_peatix,
    _register_meetup, _register_generic, simulate, try_except, failed.
  unfold well_formed, exactly_one, confirmed_ok, failed_with_error.
  destruct (source_platform (event ranked_event)), fault as [e|];
    cbn [platform_value eqb str map list_ascii_of_string N_of_ascii
         N.eqb Pos.eqb andb N_of_digits N.add N.mul
         success confirmation_data error_message];
    solve [ left; split; [split; [reflexivity | discriminate]
                         | intros [Hs _]; discriminate]
          | right; split; [intros [Hs _]; discriminate
                          | split; [reflexivity | discriminate]] ].
Qed.

Lemma register_loop_well_formed (faults : nat -> option pystr)
    (ranked_events : list RankedEvent) (i : nat)
    (results : list RegistrationResult) (count : nat) :
  Forall well_formed results ->
  Forall well_formed
    (register_loop faults i ranked_events results count).
Proof.
  revert i results count.
  induction ranked_events as [|re rest IH]; intros i results count Hres;
    cbn [register_loop].
  - exact Hres.
  - destruct (3 <=? count)%nat; [exact Hres|].
    destruct (_should_register re); apply IH; [|exact Hres].
    apply Forall_app; split; [exact Hres|].
    constructor; [apply register_single_event_well_formed | constructor].
Qed.

(** The counter of the loop is the number of successes so far, and the
    loop never lets it pass three. *)
Lemma register_loop_cap (faults : nat -> option pystr)
    (ranked_events : list RankedEvent) (i : nat)
    (results : list RegistrationResult) (count : nat) :
  count = successes results -> (count <= 3)%nat ->
  (successes (register_loop faults i ranked_events results count) <= 3)%nat.
Proof.
  revert i results count.
  induction ranked_events as [|re rest IH]; intros i results count Hc Hle;
    cbn [register_loop].
  - lia.
  - destruct (3 <=? count)%nat eqn:Hcap; [lia|].
    apply Nat.leb_gt in Hcap.
    destruct (_should_register re); [|apply IH; assumption].
    apply IH.
    + rewrite successes_app, <- Hc.
      destruct (success _); lia.
    + destruct (success _); lia.
Qed.

(** Once three registrations have succeeded, later events are not
    looked at. *)
Lemma register_loop_stops (faults : nat -> option pystr)
    (ranked_events more : list RankedEvent) (i : nat)
    (results : list RegistrationResult) (count : nat) :
  count = successes results ->
  (3 <= successes (register_loop faults i ranked_events results count))%nat ->
  register_loop faults i (ranked_events ++ more) results count
  = register_loop faults i ranked_events results count.
Proof.
  revert i results count.
  induction ranked_events as [|re rest IH]; intros i results count Hc Hge.
  - cbn [register_loop app] in *.
    destruct more as [|re' more']; cbn [register_loop]; [reflexivity|].
    replace (3 <=? count)%nat with true; [reflexivity|].
    symmetry. apply Nat.leb_le. lia.
  - cbn [register_loop app] in *.
    destruct (3 <=? count)%nat; [reflexivity|].
    destruct (_should_register re); apply IH; try assumption.
    rewrite successes_app, <- Hc. destruct (success _); lia.
Qed.

(** While fewer than three registrations have succeeded, the loop goes on
    to the next event, however many results it holds: an eligible event is
    attempted and its result appended, an ineligible one is passed over. *)
Lemma register_loop_continues (faults : nat -> option pystr)
    (ranked_events : list RankedEvent) (next : RankedEvent) (i : nat)
    (results : list RegistrationResult) (count : nat) :
  count = successes results ->
  (successes (register_loop faults i ranked_events results count) < 3)%nat ->
  register_loop faults i (ranked_events ++ [next]) results count
  = register_loop faults i ranked_events results count ++
    (if _should_register next
     then [_register_single_event next
             (faults (i + List.length ranked_events)%nat)]
     else []).
Proof.
  revert i results count.
  induction ranked_events as [|re rest IH]; intros i results count Hc Hlt.
  - cbn [register_loop app List.length] in *.
    replace (3 <=? count)%nat with false
      by (symmetry; apply Nat.leb_gt; lia).
    rewrite Nat.add_0_r.
    destruct (_should_register next); [reflexivity|].
    rewrite app_nil_r. reflexivity.
  - cbn [register_loop app List.length] in *.
    destruct (3 <=? count)%nat eqn:Hcap.
    + apply Nat.leb_le in Hcap. lia.
    + rewrite Nat.add_succ_r.
      destruct (_should_register re);
        apply (IH (S i)); try assumption.
      rewrite successes_app, <- Hc. destruct (success _); lia.
Qed.

End WithRuntime.

End RegistrarFacts.

(* ================================================================== *)
(** * Persistence: saving by [source_url] *)
(* ================================================================== *)

Module StorageFacts.
Import PyStrFacts Storage.

Lemma pystr_eq_dec (a b : pystr) : {a = b} + {a <> b}.
Proof. apply list_eq_dec, N.eq_dec. Qed.

Section Contract.
Variable store : Type.
Variable select_id : store -> pystr -> result (list key).
Variable insert : store -> event_row -> store * result (list key).
Variable rows_of : store -> pystr -> list key.
Hypothesis contract : honours_contract select_id insert rows_of.

(** One turn of the loop when the row is there. *)
Lemma save_loop_existing (clock : nat -> datetime) (i : nat) (st : store)
    (ev : Event) (rest : list Event) (acc : list key) (k : key)
    (tl : list key) :
  rows_of st (source_url ev) = k :: tl ->
  save_loop select_id insert clock i st (ev :: rest) acc
  = save_loop select_id insert clock (S i) st rest (acc ++ [k]).
Proof.
  intros Hrows. cbn [save_loop].
  rewrite (select_contract contract), Hrows. reflexivity.
Qed.

(** One turn of the loop when the row is missing. *)
Lemma save_loop_missing (clock : nat -> datetime) (i : nat) (st : store)
    (ev : Event) (rest : list Event) (acc : list key) :
  rows_of st (source_url ev) = [] ->
  exists st1 k,
    save_loop select_id insert clock i st (ev :: rest) acc
    = save_loop select_id insert clock (S i) st1 rest (acc ++ [k]) /\
    rows_of st1 (source_url ev) = [k] /\
    forall u, u <> source_url ev -> rows_of st1 u = rows_of st u.
Proof.
  intros Hrows.
  destruct (insert_contract contract st (event_data (clock i) ev))
    as [st1 [k [Hins [Hsame Hother]]]].
  exists st1, k. cbn [save_loop].
  rewrite (select_contract contract), Hrows, Hins.
  cbn [event_data row_source_url] in Hsame, Hother.
  rewrite Hrows in Hsame. auto.
Qed.

(** What a run of the loop does to the store and which keys it
    returns. *)
Lemma save_loop_inv (events : list Event) :
  forall (clock : nat -> datetime) (i : nat) (st : store)
         (acc : list key),
  exists st',
    save_loop select_id insert clock i st events acc
    = (st', acc ++ map (fun ev => first_key rows_of st' (source_url ev))
                       events) /\
    (forall ev, In ev events -> rows_of st' (source_url ev) <> []) /\
    (forall u, rows_of st u <> [] -> rows_of st' u = rows_of st u) /\
    (forall u, rows_of st u = [] -> (List.length (rows_of st' u) <= 1)%nat).
Proof.
  induction events as [|ev rest IH]; intros clock i st acc.
  - exists st. cbn [save_loop map]. rewrite app_nil_r.
    split; [reflexivity|]. split; [intros ev []|].
    split; [reflexivity|]. intros u ->. simpl. lia.
  - destruct (rows_of st (source_url ev)) as [|k tl] eqn:Hrows.
    + destruct (@save_loop_missing clock i st ev rest acc Hrows)
        as [st1 [k [Hstep [Hsame Hother]]]].
      destruct (IH clock (S i) st1 (acc ++ [k]))
        as [st' [Hrun [Hpresent [Hkeep Hone]]]].
      assert (Hu : rows_of st' (source_url ev) = [k]).
      { rewrite Hkeep; rewrite Hsame; [reflexivity | discriminate]. }
      exists st'. repeat split.
      * rewrite Hstep, Hrun, <- app_assoc. cbn [map app].
        unfold first_key at 2. rewrite Hu. reflexivity.
      * intros ev' [<- | Hin]; [rewrite Hu; discriminate | auto].
      * intros u Hne.
        assert (u <> source_url ev) by (intros ->; contradiction).
        rewrite Hkeep; rewrite Hother; auto.
      * intros u Hnil.
        destruct (pystr_eq_dec u (source_url ev)) as [-> | Hneq].
        -- rewrite Hu. simpl. lia.
        -- apply Hone. rewrite Hother; auto.
    + destruct (IH clock (S i) st (acc ++ [k]))
        as [st' [Hrun [Hpresent [Hkeep Hone]]]].
      assert (Hu : rows_of st' (source_url ev) = k :: tl).
      { rewrite Hkeep; rewrite Hrows; [reflexivity | discriminate]. }
      exists st'. repeat split; auto.
      * rewrite (@save_loop_existing clock i st ev rest acc k tl Hrows).
        rewrite Hrun, <- app_assoc. cbn [map app].
        unfold first_key at 2. rewrite Hu. reflexivity.
      * intros ev' [<- | Hin]; [rewrite Hu; discriminate | auto].
Qed.

(** Saving events whose rows are all there inserts nothing. *)
Lemma save_loop_present (events : list Event) :
  forall (clock : nat -> datetime) (i : nat) (st : store)
         (acc : list key),
    (forall ev, In ev events -> rows_of st (source_url ev) <> []) ->
    save_loop select_id insert clock i st events acc
    = (st, acc ++ map (fun ev => first_key rows_of st (source_url ev))
                      events).
Proof.
  induction events as [|ev rest IH]; intros clock i st acc Hall.
  - cbn [save_loop map]. rewrite app_nil_r. reflexivity.
  - destruct (rows_of st (source_url ev)) as [|k tl] eqn:Hrows.
    + exfalso. apply (Hall ev); [left; reflexivity | exact Hrows].
    + rewrite (@save_loop_existing clock i st ev rest acc k tl Hrows).
      rewrite IH by (intros ev' Hin; apply Hall; right; exact Hin).
      rewrite <- app_assoc. cbn [map app].
      unfold first_key at 2. rewrite Hrows. reflexivity.
Qed.

End Contract.

(** The list store honours the contract. *)
Lemma list_store_honours_contract
    (new_key : list (key * event_row) -> event_row -> key) :
  honours_contract list_select (list_insert new_key) list_rows_of.
Proof.
  split.
  - reflexivity.
  - intros st row. exists (st ++ [(new_key st row, row)]), (new_key st row).
    split; [reflexivity|].
    unfold list_rows_of. split.
    + rewrite filter_app, map_app. cbn [filter snd].
      rewrite eqb_refl. reflexivity.
    + intros u Hne. rewrite filter_app, map_app. cbn [filter snd].
      destruct (eqb (row_source_url row) u) eqn:E.
      * apply eqb_eq in E. congruence.
      * cbn [map]. apply app_nil_r.
Qed.

End StorageFacts.
(* ================================================================== *)
(** * Discovery: fallback of a failed pair *)
(* ================================================================== *)

Module FinderFacts.
Import Finder FallbackSpec.

Lemma collect_concat (lists : list (list Event)) (all_events : list Event) :
  collect (map Ok lists) all_events = all_events ++ List.concat lists.
Proof.
  revert all_events; induction lists as [|l lists IH]; intros all_events;
    cbn [map collect List.concat].
  - rewrite app_nil_r. reflexivity.
  - destruct l as [|e l]; rewrite IH.
    + reflexivity.
    + rewrite <- app_assoc. reflexivity.
Qed.


Section WithRuntime.
Context `{PyRuntime}.

(** The call returns the gathered events when the client closes, and
    raises what [aclose()] raises otherwise. *)
Lemma discover_events_outcome (w : world) :
  discover_events w
  = match aclose w with
    | Ok _ => Ok (gathered w)
    | Raise e => Raise e
    end.
Proof.
  unfold discover_events, try_finally, gathered.
  destruct (aclose w) as [u | e]; [|reflexivity].
  cbn [try_except]. f_equal.
  rewrite <- (map_map (fun pc => _search_platform w (fst pc) (snd pc)) Ok).
  apply collect_concat.
Qed.

Lemma search_connpass_fallback (reply : http_reply) (clk : clock)
    (city : pystr) :
  query_fails reply = true ->
  _search_connpass reply clk city = Ok (_get_connpass_mock_events clk city).
Proof.
  intros Hfails. unfold _search_connpass.
  destruct reply as [msg | status_code payload]; cbn [try_except].
  - reflexivity.
  - destruct (status_code =? 403)%Z; [reflexivity|].
    cbn [query_fails] in Hfails.
    destruct (is_success status_code); cbn [negb orb] in *.
    + destruct payload as [events | msg]; [discriminate | reflexivity].
    + reflexivity.
Qed.




End WithRuntime.

End FinderFacts.


(* ================================================================== *)
(** * The model at work *)
(* ================================================================== *)

Module Examples.
Import Ranker Registrar Notifier.

(** The literals are the binary64 numbers Python reads: [0.8] is
    [0x1.999999999999ap-1], and [0.80] is the same number. *)
Example literal_0_8 : f0_8 = S754_finite false 7205759403792794 (-53).
Proof. reflexivity. Qed.

Example literal_0_80 : f0_80 = f0_8.
Proof. reflexivity. Qed.

Example literal_0_79 : f0_79 = S754_finite false 7115687411245384 (-53).
Proof. reflexivity. Qed.

(** The literals and the hundredths are numbers of binary64. *)
Example literals_valid :
  forallb (valid_binary prec emax)
    [f0_0; f0_1; f0_2; f0_3; f0_4; f0_5; f0_6; f0_8; f0_79; f1_0] = true.
Proof. vm_compute. reflexivity. Qed.

Example hundredths_valid :
  forallb (fun n => valid_binary prec emax (ratio (Z.of_nat n) 100))
          (seq 0 101) = true.
Proof. vm_compute. reflexivity. Qed.

(** [5 * 0.2] is exactly [1.0], and [3 * 0.2] is not [0.6]. *)
Example five_fifths : fmul (of_int 5) f0_2 = f1_0.
Proof. vm_compute. reflexivity. Qed.

Example three_fifths : feq (fmul (of_int 3) f0_2) f0_6 = false.
Proof. vm_compute. reflexivity. Qed.

(** [round(0.125, 2) == 0.12] and [round(0.375, 2) == 0.38]: an exact tie
    goes to the even digit. *)
Example round_tie_down : py_round2 (ratio 1 8) = ratio 12 100.
Proof. vm_compute. reflexivity. Qed.

Example round_tie_up : py_round2 (ratio 3 8) = ratio 38 100.
Proof. vm_compute. reflexivity. Qed.

(** [round(2.675, 2) == 2.67]: the float nearest to 2.675 lies below it. *)
Example round_2_675 : py_round2 (ratio 2675 1000) = ratio 267 100.
Proof. vm_compute. reflexivity. Qed.

(** [max(0.0, min(1.0, nan))] is [1.0]. *)
Example clamp_nan : py_max f0_0 (py_min f1_0 S754_nan) = f1_0.
Proof. reflexivity. Qed.

(** ["AI Startup Networking Night"] in Osaka, oracle unavailable: three
    keywords, semantic score 0.5, score 0.69. *)
Example score_networking_night :
  _calculate_relevance_score (H := plain_runtime) Samples.networking_night
    (RunRaises [])
  = Ok {| event := Samples.networking_night;
          relevance_score := ratio 69 100;
          matched_keywords := [str "startup"; str "AI"; str "networking"];
          confidence := f0_5 |}.
Proof. vm_compute. reflexivity. Qed.

(** The prices the free check lets through. *)
Example free_is_free : has_free_indicator (H := plain_runtime) (str "FREE") = true.
Proof. reflexivity. Qed.

Example muryo_is_free :
  has_free_indicator (H := plain_runtime) [28961; 26009]%N = true.
Proof. reflexivity. Qed.

Example yen_999_is_paid :
  has_free_indicator (H := plain_runtime) (165%N :: str "999") = false.
Proof. reflexivity. Qed.

(** Discovery itself builds the price ["¥500"]: a Connpass event whose
    [fee] is ["500"]. *)
Example connpass_fee_500 :
  price (Finder.parse_connpass_event (H := plain_runtime) (fun _ => 0%Z) 0
           (str "Osaka")
           {| Finder.c_title := Some (str "Paid seminar");
              Finder.c_description := None;
              Finder.c_place := None;
              Finder.c_address := None;
              Finder.c_event_url := Some (str "https://connpass.com/event/2/");
              Finder.c_started_at := None;
              Finder.c_fee := Some (Finder.FeeStr (str "500")) |})
  = price Samples.paid_night.
Proof. reflexivity. Qed.

(** A fee that is the JSON number [0], not the string ["0"], is not
    ["Free"]: the price is ["¥0"]. *)
Example connpass_fee_number_0 :
  Finder.fee_price (Finder.FeeOther (str "0")) = 165%N :: str "0" /\
  Finder.fee_price (Finder.FeeStr (str "0")) = str "Free".
Proof. split; reflexivity. Qed.

(** Scores 0.9, 0.85, 0.82 (paid), 0.95, 0.81, all free but the third: the
    first, second and fourth are registered, in that order, and the fifth
    is not looked at. *)
Example five_events :
  let free := Samples.ranked Samples.networking_night in
  let paid := Samples.ranked (Samples.priced (165%N :: str "999")) in
  map (fun r => relevance_score (reg_event r))
    (register_for_events (H := plain_runtime) (fun _ => None)
       [ free (ratio 90 100); free (ratio 85 100); paid (ratio 82 100);
         free (ratio 95 100); free (ratio 81 100) ])
  = [ratio 90 100; ratio 85 100; ratio 95 100].
Proof. vm_compute. reflexivity. Qed.

(** The digest of an empty ranking is empty, and sending it goes through. *)
Example empty_digest :
  digest_events (H := plain_runtime) [] = [] /\
  send_weekly_digest (H := plain_runtime)
    {| telegram_bot := true; telegram_send := fun _ => Ok tt;
       EMAIL_USERNAME := None; EMAIL_PASSWORD := None;
       smtp_send := fun _ => Ok tt |} [] = true.
Proof. split; reflexivity. Qed.

End Examples.

(* ================================================================== *)
(** * The properties of the specification *)
(* ================================================================== *)

Import Ranker ScoringSpec.

(** C3.  For every sequence of events and every behaviour of the oracle,
    the list returned by [rank_events] holds only ranked events whose
    relevance score lies in [[0, 1]] and is at least 0.6, and the list is
    sorted non-increasing by relevance score. *)
Theorem rank_events_sorted_above_threshold `{PyRuntime}
    (oracle : nat -> oracle_reply) (events : list Event) :
  Forall above_threshold (rank_events oracle events) /\
  sorted_by_score_desc (rank_events oracle events).
Proof.
  assert (Hloop : Forall above_threshold (rank_loop oracle 0 events []))
    by (apply RankerFacts.rank_loop_above_threshold; constructor).
  unfold rank_events, sorted_by_score_desc. split.
  - apply RankerFacts.sort_reverse_Forall. exact Hloop.
  - apply RankerFacts.sort_reverse_sorted.
    apply RankerFacts.above_threshold_finite. exact Hloop.
Qed.

(** C4 as the specification words it does not hold of the code.  The
    event matches five keywords and is in Osaka, and the oracle answers
    ["0.05"], read as the float nearest to 0.05.  The code scores 0.71.
    The expression of the specification, with the exact value of that
    float as [s], is above 0.715 and so rounds to 0.72 whatever the rule
    for ties; with [s] the decimal number 0.05 it is 0.715 and rounds to
    0.72 as well. *)
Lemma relevance_score_is_not_the_exact_one :
  _get_semantic_score (H := decimal_runtime) (Response (Some (str "0.05")))
  = ratio 5 100 /\
  in_unit (ratio 5 100) = true /\
  keyword_count (H := decimal_runtime) Samples.business_evening = 5%nat /\
  location Samples.business_evening = f1_0 /\
  (exists r,
      _calculate_relevance_score (H := decimal_runtime)
        Samples.business_evening (Response (Some (str "0.05"))) = Ok r /\
      relevance_score r = ratio 71 100 /\
      feq (relevance_score r) (exact_rounded 5 (ratio 5 100) f1_0) = false) /\
  exact_rounded 5 (ratio 5 100) f1_0 = ratio 72 100 /\
  715 # 1000 < exact_score 5 (value (ratio 5 100)) (value f1_0) /\
  exact_score 5 (value (ratio 5 100)) (value f1_0) < 725 # 1000 /\
  exact_hundredths 5 (5 # 100) 1 = 72%Z.
Proof.
  split; [vm_compute; reflexivity|]. split; [vm_compute; reflexivity|].
  split; [vm_compute; reflexivity|]. split; [vm_compute; reflexivity|].
  split.
  - eexists. split; [vm_compute; reflexivity|].
    split; vm_compute; reflexivity.
  - repeat split; vm_compute; reflexivity.
Qed.

(** C4, amended.  For every event and every semantic score [s] in
    [[0, 1]] obtained from the oracle, [_calculate_relevance_score] returns
    a ranked event whose relevance score is the expression
    [clamp(0, 1, 0.4 x min(1.0, 0.2 x k) + 0.3 x s + 0.2 x loc + 0.1)]
    evaluated in binary64 arithmetic, every product and sum rounded to the
    nearest float and the sums taken from left to right, then rounded to
    two decimal places; [k] is the number of fixed keywords that occur
    case-insensitively as substrings of [title + " " + description] and
    [loc] is 1.0 when the city is Osaka, Kobe or Kyoto and 0.3 otherwise.
    The ranked event carries the matched keywords, and [s] as its
    confidence. *)
Theorem relevance_score_formula `{PyRuntime} (ev : Event)
    (reply : oracle_reply) (s : float) :
  _get_semantic_score reply = s ->
  in_unit s = true ->
  _calculate_relevance_score ev reply
  = Ok {| event := ev;
          relevance_score :=
            binary64_score (keyword_count ev) s (location ev);
          matched_keywords := _find_keyword_matches ev;
          confidence := s |}.
Proof.
  intros Hreply Hs. subst s.
  rewrite RankerFacts.calculate_relevance_score_returns.
  rewrite RankerFacts.final_score_spec by exact Hs. reflexivity.
Qed.

(** At the input above the binary64 expression is 0.71, the score of the
    code; at the default semantic score 0.5 (the oracle raises) the event
    of three keywords scores 0.69. *)
Lemma relevance_score_formula_witness :
  (_get_semantic_score (H := decimal_runtime)
     (Response (Some (str "0.05"))) = ratio 5 100 /\
   in_unit (ratio 5 100) = true /\
   _calculate_relevance_score (H := decimal_runtime)
     Samples.business_evening (Response (Some (str "0.05")))
   = Ok {| event := Samples.business_evening;
           relevance_score :=
             binary64_score
               (keyword_count (H := decimal_runtime) Samples.business_evening)
               (ratio 5 100) (location Samples.business_evening);
           matched_keywords :=
             _find_keyword_matches (H := decimal_runtime)
               Samples.business_evening;
           confidence := ratio 5 100 |} /\
   binary64_score
     (keyword_count (H := decimal_runtime) Samples.business_evening)
     (ratio 5 100) (location Samples.business_evening) = ratio 71 100) /\
  (_get_semantic_score (H := plain_runtime) (RunRaises []) = f0_5 /\
   in_unit f0_5 = true /\
   _calculate_relevance_score (H := plain_runtime) Samples.networking_night
     (RunRaises [])
   = Ok {| event := Samples.networking_night;
           relevance_score :=
             binary64_score
               (keyword_count (H := plain_runtime) Samples.networking_night)
               f0_5 (location Samples.networking_night);
           matched_keywords :=
             _find_keyword_matches (H := plain_runtime)
               Samples.networking_night;
           confidence := f0_5 |} /\
   binary64_score
     (keyword_count (H := plain_runtime) Samples.networking_night)
     f0_5 (location Samples.networking_night) = ratio 69 100).
Proof.
  split.
  - split; [vm_compute; reflexivity|]. split; [vm_compute; reflexivity|].
    split; [|vm_compute; reflexivity].
    apply (@relevance_score_formula decimal_runtime Samples.business_evening
             (Response (Some (str "0.05"))) (ratio 5 100));
      vm_compute; reflexivity.
  - split; [reflexivity|]. split; [reflexivity|].
    split; [|vm_compute; reflexivity].
    apply (@relevance_score_formula plain_runtime Samples.networking_night
             (RunRaises []) f0_5); reflexivity.
Defined.

Import Registrar.

(** The yen sign is uncased: whatever the rest of the table, the price
    ["¥500"] carries the free indicator ["0"], and an event at that price
    with score 1.0 that requires registration is eligible. *)
Lemma yen_500_has_free_indicator `{PyRuntime} :
  (forall before rest, lower_full before 165%N rest = [165%N]) ->
  _should_register (Samples.ranked Samples.paid_night f1_0) = true.
Proof.
  intros Hyen. rewrite RegistrarFacts.should_register_eq.
  unfold has_free_indicator, py_lower, lower.
  cbn [Samples.ranked Samples.paid_night Samples.priced event price relevance_score
       registration_required lower_from N.ltb N.compare Pos.compare
       Pos.compare_cont].
  rewrite Hyen.
  rewrite (PyStrFacts.lower_from_ascii_lowercase lower_full (str "500") _ eq_refl).
  reflexivity.
Qed.

(** C1.  The specification states that an event priced ["¥500"] is never
    eligible for registration, even with relevance score 1.0.  The code does
    not ensure it: ["0"] is one of its free indicators and ["¥500"] contains
    it, so with score 1.0 and registration required [_should_register]
    returns [True]. *)
Theorem yen_500_is_eligible :
  _should_register (H := plain_runtime)
    (Samples.ranked Samples.paid_night f1_0) = true.
Proof. vm_compute. reflexivity. Qed.

(** C2.  Whatever the events and whatever fails, [register_for_events]
    returns at most three successful results.  The cap counts the
    successful results only: as long as fewer than three registrations have
    succeeded, however many have failed, the next event is processed, an
    eligible one being attempted and its result, success or failure,
    appended.  And processing stops once the cap is reached: after three
    successes the events that follow are not processed. *)
Theorem registration_cap `{PyRuntime} (faults : nat -> option pystr)
    (ranked_events : list RankedEvent) :
  (successes (register_for_events faults ranked_events) <= 3)%nat /\
  (forall next : RankedEvent,
      (successes (register_for_events faults ranked_events) < 3)%nat ->
      register_for_events faults (ranked_events ++ [next])
      = register_for_events faults ranked_events ++
        (if _should_register next
         then [_register_single_event next
                 (faults (List.length ranked_events))]
         else [])) /\
  (forall more : list RankedEvent,
      successes (register_for_events faults ranked_events) = 3%nat ->
      register_for_events faults (ranked_events ++ more)
      = register_for_events faults ranked_events).
Proof.
  unfold register_for_events. split; [|split].
  - apply RegistrarFacts.register_loop_cap; [reflexivity | lia].
  - intros next Hlt.
    apply RegistrarFacts.register_loop_continues; [reflexivity | exact Hlt].
  - intros more H3. apply RegistrarFacts.register_loop_stops; [reflexivity|].
    rewrite H3. lia.
Qed.

(** Four free events with score 1.0, the second attempt failing: after
    three attempts two have succeeded, so the fourth event is attempted and
    makes the third success; the results are success, failure, success,
    success, and two more events change nothing. *)
Lemma registration_cap_witness :
  let free := Samples.ranked Samples.networking_night f1_0 in
  let faults := fun i => match i with
                         | 1%nat => Some (str "timeout")
                         | _ => None
                         end in
  map success (register_for_events (H := plain_runtime) faults
                 [free; free; free])
  = [true; false; true] /\
  register_for_events (H := plain_runtime) faults ([free; free; free] ++ [free])
  = register_for_events (H := plain_runtime) faults [free; free; free] ++
    [_register_single_event (H := plain_runtime) free None] /\
  map success (register_for_events (H := plain_runtime) faults
                 [free; free; free; free])
  = [true; false; true; true] /\
  register_for_events (H := plain_runtime) faults
    ([free; free; free; free] ++ [free; free])
  = register_for_events (H := plain_runtime) faults [free; free; free; free].
Proof.
  intros free faults.
  split; [vm_compute; reflexivity|].
  split.
  - apply (proj1 (proj2 (@registration_cap plain_runtime faults
                           [free; free; free])) free).
    vm_compute. lia.
  - split; [vm_compute; reflexivity|].
    apply (proj2 (proj2 (@registration_cap plain_runtime faults
                           [free; free; free; free]))).
    vm_compute. reflexivity.
Defined.

(** C8.  Every result the registrar produces, from a single registration
    or in the list of a whole run, satisfies exactly one of: it succeeded
    and carries confirmation data; it failed and carries an error
    message. *)
Theorem registration_results_well_formed `{PyRuntime} :
  (forall (ranked_event : RankedEvent) (fault : option pystr),
      well_formed (_register_single_event ranked_event fault)) /\
  (forall (faults : nat -> option pystr) (ranked_events : list RankedEvent),
      Forall well_formed (register_for_events faults ranked_events)).
Proof.
  split.
  - apply RegistrarFacts.register_single_event_well_formed.
  - intros faults ranked_events. unfold register_for_events.
    apply RegistrarFacts.register_loop_well_formed. constructor.
Qed.

(** C9.  The threshold 0.8 is inclusive: a ranked event whose score equals
    0.80, whose price carries a free indicator and which requires
    registration is eligible, and a ranked event whose score equals 0.79 is
    not, whatever its price. *)
Theorem eligibility_threshold_inclusive `{PyRuntime} :
  (forall ranked_event : RankedEvent,
      feq (relevance_score ranked_event) f0_80 = true ->
      has_free_indicator (price (event ranked_event)) = true ->
      registration_required (event ranked_event) = true ->
      _should_register ranked_event = true) /\
  (forall ranked_event : RankedEvent,
      feq (relevance_score ranked_event) f0_79 = true ->
      _should_register ranked_event = false).
Proof.
  split.
  - intros re Hscore Hfree Hreq.
    rewrite RegistrarFacts.should_register_eq, Hfree, Hreq.
    rewrite (RegistrarFacts.feq_flt _ f0_80 f0_8 eq_refl eq_refl Hscore).
    reflexivity.
  - intros re Hscore.
    rewrite RegistrarFacts.should_register_eq.
    rewrite (RegistrarFacts.feq_flt _ f0_79 f0_8 eq_refl eq_refl Hscore).
    reflexivity.
Qed.

Lemma eligibility_threshold_inclusive_witness :
  _should_register (H := plain_runtime)
    (Samples.ranked Samples.networking_night f0_80) = true /\
  _should_register (H := plain_runtime)
    (Samples.ranked Samples.networking_night f0_79) = false.
Proof.
  split.
  - apply (proj1 (@eligibility_threshold_inclusive plain_runtime));
      vm_compute; reflexivity.
  - apply (proj2 (@eligibility_threshold_inclusive plain_runtime));
      vm_compute; reflexivity.
Defined.

Import Storage.

(** C5.  Against a store that honours its lookup and insert contract,
    [save_events] is idempotent on [source_url]: every event gets a key; two
    events with the same [source_url] get the same key; submitting the same
    events again returns the same keys and leaves the store as it is (no
    insert is performed); and a [source_url] that had no row has exactly one
    row afterwards, however often it was submitted, while the rows of a
    [source_url] that had some are untouched. *)
Theorem save_events_idempotent (store : Type)
    (select_id : store -> pystr -> result (list key))
    (insert : store -> event_row -> store * result (list key))
    (rows_of : store -> pystr -> list key)
    (clock : nat -> datetime) (st st' : store) (events : list Event)
    (ids : list key) :
  honours_contract select_id insert rows_of ->
  save_events select_id insert clock st events = (st', ids) ->
  List.length ids = List.length events /\
  (forall i j ei ej,
      nth_error events i = Some ei -> nth_error events j = Some ej ->
      source_url ei = source_url ej ->
      exists k, nth_error ids i = Some k /\ nth_error ids j = Some k) /\
  (forall clock', save_events select_id insert clock' st' events = (st', ids)) /\
  (forall ev, In ev events ->
      (rows_of st (source_url ev) = [] ->
       List.length (rows_of st' (source_url ev)) = 1%nat) /\
      (rows_of st (source_url ev) <> [] ->
       rows_of st' (source_url ev) = rows_of st (source_url ev))).
Proof.
  intros contract Hsave. unfold save_events in *.
  destruct (StorageFacts.save_loop_inv contract events clock 0 st [])
    as [st0 [Hrun [Hpresent [Hkeep Hone]]]].
  rewrite Hrun in Hsave. cbn [app] in Hsave.
  inversion Hsave; subst st0 ids; clear Hsave.
  split; [apply length_map|]. split; [|split].
  - intros i j ei ej Hi Hj Hurl.
    exists (first_key rows_of st' (source_url ei)). split.
    + apply (map_nth_error
               (fun ev => first_key rows_of st' (source_url ev)) _ _ Hi).
    + rewrite Hurl.
      apply (map_nth_error
               (fun ev => first_key rows_of st' (source_url ev)) _ _ Hj).
  - intros clock'.
    apply (StorageFacts.save_loop_present contract events clock' 0 st' []
             Hpresent).
  - intros ev Hin. split.
    + intros Hnil. specialize (Hone _ Hnil). specialize (Hpresent _ Hin).
      destruct (rows_of st' (source_url ev)) as [|k [|k' tl]];
        [contradiction | reflexivity | simpl in Hone; lia].
    + apply Hkeep.
Qed.

Lemma save_events_idempotent_witness :
  let twice := [Samples.networking_night; Samples.paid_night] in
  let saved := save_events list_select (list_insert counter_key)
                 (fun _ => 0%Z) [] twice in
  snd saved = [[0%N]; [0%N]] /\
  List.length (fst saved) = 1%nat /\
  save_events list_select (list_insert counter_key) (fun _ => 1%Z)
    (fst saved) twice = saved.
Proof.
  intros twice saved.
  split; [reflexivity|]. split; [reflexivity|].
  apply (proj1 (proj2 (proj2
    (@save_events_idempotent _ list_select (list_insert counter_key)
       list_rows_of (fun _ => 0%Z) [] (fst saved) twice (snd saved)
       (StorageFacts.list_store_honours_contract counter_key) eq_refl)))).
Defined.

Import Registrar Notifier.

(** What [send_weekly_digest] returns: a channel that is not configured
    counts as a success. *)
Lemma send_weekly_digest_eq `{PyRuntime} (env : channels)
    (ranked_events : list RankedEvent) :
  send_weekly_digest env ranked_events
  = (negb (telegram_bot env) || telegram_succeeded env ranked_events) ||
    (negb (truthy (EMAIL_USERNAME env)) || email_succeeded env ranked_events).
Proof.
  unfold send_weekly_digest, telegram_succeeded, email_succeeded.
  destruct (telegram_bot env), (truthy (EMAIL_USERNAME env)); reflexivity.
Qed.

(** When a channel succeeded the digest reports success. *)
Lemma send_weekly_digest_if_any `{PyRuntime} (env : channels)
    (ranked_events : list RankedEvent) :
  telegram_succeeded env ranked_events || email_succeeded env ranked_events
    = true ->
  send_weekly_digest env ranked_events = true.
Proof.
  rewrite send_weekly_digest_eq.
  destruct (telegram_succeeded env ranked_events),
    (email_succeeded env ranked_events), (telegram_bot env),
    (truthy (EMAIL_USERNAME env)); simpl; congruence.
Qed.

(** C6.  The specification states that the digest reports success exactly
    when a configured channel succeeded.  The code does not ensure it: with
    Telegram configured and failing and e-mail not configured, no channel
    succeeded and [send_weekly_digest] returns [True]; so it does when no
    channel is configured at all. *)
Theorem digest_success_without_a_channel :
  (send_weekly_digest (H := plain_runtime) Samples.telegram_down [] = true /\
   telegram_succeeded (H := plain_runtime) Samples.telegram_down [] = false /\
   email_succeeded (H := plain_runtime) Samples.telegram_down [] = false) /\
  (send_weekly_digest (H := plain_runtime) Samples.no_channel [] = true /\
   telegram_succeeded (H := plain_runtime) Samples.no_channel [] = false /\
   email_succeeded (H := plain_runtime) Samples.no_channel [] = false).
Proof. repeat split; reflexivity. Qed.

(** C10.  In the digest an event is labelled "Auto-registered" exactly when
    its relevance score is at least 0.8, and the label is a function of the
    score alone: an event that the free-price check skips, and an event that
    comes after the cap of three registrations was reached, produce no
    registration result and still carry the label when their score is at
    least 0.8. *)
Theorem digest_label_follows_score `{PyRuntime} :
  (forall ranked_events : list RankedEvent,
      digest_events ranked_events
      = map digest_event (firstn 10 ranked_events)) /\
  (forall ranked_event : RankedEvent,
      registration_status (digest_event ranked_event) = auto_registered <->
      fge (relevance_score ranked_event) f0_8 = true) /\
  (forall a b : RankedEvent,
      relevance_score a = relevance_score b ->
      registration_status (digest_event a)
      = registration_status (digest_event b)) /\
  (forall (ranked_event : RankedEvent) (faults : nat -> option pystr),
      fge (relevance_score ranked_event) f0_8 = true ->
      has_free_indicator (price (event ranked_event)) = false ->
      register_for_events faults [ranked_event] = [] /\
      registration_status (digest_event ranked_event) = auto_registered) /\
  (forall (before : list RankedEvent) (ranked_event : RankedEvent)
          (faults : nat -> option pystr),
      fge (relevance_score ranked_event) f0_8 = true ->
      successes (register_for_events faults before) = 3%nat ->
      register_for_events faults (before ++ [ranked_event])
      = register_for_events faults before /\
      registration_status (digest_event ranked_event) = auto_registered).
Proof.
  assert (Hlabel : forall re : RankedEvent,
             registration_status (digest_event re) = auto_registered <->
             fge (relevance_score re) f0_8 = true).
  { intros re. cbn [digest_event registration_status].
    destruct (fge (relevance_score re) f0_8); split;
      try reflexivity; discriminate. }
  split; [reflexivity|]. split; [exact Hlabel|]. split; [|split].
  - intros a b Hab. cbn [digest_event registration_status].
    rewrite Hab. reflexivity.
  - intros re faults Hscore Hpaid. split; [|apply Hlabel, Hscore].
    unfold register_for_events. cbn [register_loop Nat.leb].
    rewrite RegistrarFacts.should_register_eq, Hpaid.
    rewrite andb_false_r. reflexivity.
  - intros before re faults Hscore H3. split; [|apply Hlabel, Hscore].
    unfold register_for_events in *.
    apply RegistrarFacts.register_loop_stops; [reflexivity|].
    rewrite H3. lia.
Qed.

Lemma digest_label_follows_score_witness :
  let free := Samples.ranked Samples.networking_night f1_0 in
  (register_for_events (H := plain_runtime) (fun _ => None)
     [Samples.paid_999] = [] /\
   registration_status (digest_event (H := plain_runtime) Samples.paid_999)
   = auto_registered) /\
  (register_for_events (H := plain_runtime) (fun _ => None)
     ([free; free; free] ++ [free])
   = register_for_events (H := plain_runtime) (fun _ => None)
       [free; free; free] /\
   registration_status (digest_event (H := plain_runtime) free)
   = auto_registered).
Proof.
  intros free. split.
  - apply (proj1 (proj2 (proj2 (proj2
             (@digest_label_follows_score plain_runtime)))));
      vm_compute; reflexivity.
  - apply (proj2 (proj2 (proj2 (proj2
             (@digest_label_follows_score plain_runtime)))));
      vm_compute; reflexivity.
Defined.
Import Finder FallbackSpec.




(* ================================================================== *)
(** * Further properties of the scoring component *)
(* ================================================================== *)

Import Scored.

Lemma fcompare_antisym (x y : float) :
  fcompare y x = option_map CompOpp (fcompare x y).
Proof.
  destruct x as [sx|[|]| |sx mx ex], y as [sy|[|]| |sy my ey];
    cbn [fcompare option_map value]; try reflexivity;
    try (destruct sx; reflexivity); try (destruct sy; reflexivity);
    rewrite <- Qcompare_antisym; reflexivity.
Qed.

Lemma fge_not_flt (x y : float) : fge x y = true -> flt x y = false.
Proof.
  unfold fge, fle, flt. rewrite (fcompare_antisym x y).
  destruct (fcompare x y) as [[| |]|]; cbn; congruence.
Qed.

Lemma relevance_keywords_NoDup : NoDup relevance_keywords.
Proof.
  unfold relevance_keywords.
  repeat (constructor; [cbn; intuition discriminate|]).
  constructor.
Qed.

Lemma calculate_scored `{PyRuntime} (ev : Event) (reply : oracle_reply) :
  _calculate_relevance_score ev reply = Ok (scored_event ev reply).
Proof. rewrite RankerFacts.calculate_relevance_score_returns. reflexivity. Qed.

Lemma rank_loop_filter `{PyRuntime} (oracle : nat -> oracle_reply)
    (events : list Event) (i : nat) (acc : list RankedEvent) :
  rank_loop oracle i events acc
  = acc ++ filter (fun r => fge (relevance_score r) f0_6)
                  (scored oracle i events).
Proof.
  revert i acc; induction events as [|ev rest IH]; intros i acc.
  - cbn [rank_loop scored filter]. rewrite app_nil_r. reflexivity.
  - rewrite RankerFacts.rank_loop_cons, calculate_scored.
    cbn [scored filter].
    generalize (scored_event ev (oracle i)). intros r.
    destruct (fge (relevance_score r) f0_6); rewrite IH.
    + rewrite <- app_assoc. reflexivity.
    + reflexivity.
Qed.

Lemma scored_events `{PyRuntime} (oracle : nat -> oracle_reply)
    (events : list Event) (i : nat) :
  map event (scored oracle i events) = events.
Proof.
  revert i; induction events as [|ev rest IH]; intros i; cbn [scored map].
  - reflexivity.
  - rewrite IH. reflexivity.
Qed.

(** X1.  Whatever the oracle does, the semantic score lies in [[0, 1]]:
    it is 0.5 when the call raises, when the reply has no text and when the
    text is not a number, and a number strictly between 0 and 1 is taken as
    it is. *)
Theorem semantic_score_bounded `{PyRuntime} :
  (forall reply, fge (_get_semantic_score reply) f0_0 = true /\
                 fle (_get_semantic_score reply) f1_0 = true) /\
  (forall msg, _get_semantic_score (RunRaises msg) = f0_5) /\
  _get_semantic_score (Response None) = f0_5 /\
  (forall content, float_of_str (strip content) = None ->
                   _get_semantic_score (Response (Some content)) = f0_5) /\
  (forall content v, float_of_str (strip content) = Some v ->
                     flt f0_0 v = true -> flt v f1_0 = true ->
                     _get_semantic_score (Response (Some content)) = v).
Proof.
  split; [|split; [|split; [|split]]]; try reflexivity.
  - intros reply.
    pose proof (RankerFacts.semantic_score_in_unit reply) as Hu.
    unfold in_unit in Hu. apply andb_true_iff in Hu. exact Hu.
  - intros content Hnone. cbn [_get_semantic_score]. rewrite Hnone.
    reflexivity.
  - intros content v Hsome H0 H1. cbn [_get_semantic_score].
    rewrite Hsome. unfold py_max, py_min, fgt. rewrite H1, H0. reflexivity.
Qed.

Lemma semantic_score_bounded_witness :
  _get_semantic_score (H := plain_runtime) (Response (Some (str "n/a")))
  = f0_5 /\
  _get_semantic_score (H := quarter_runtime) (Response (Some (str " 0.25 ")))
  = ratio 1 4.
Proof.
  split.
  - apply (proj1 (proj2 (proj2 (proj2
             (@semantic_score_bounded plain_runtime))))). reflexivity.
  - apply (proj2 (proj2 (proj2 (proj2
             (@semantic_score_bounded quarter_runtime))))
             (str " 0.25 ") (ratio 1 4)); reflexivity.
Defined.

(** X2.  The matched keywords are exactly the fixed keywords whose
    lowercase occurs as a substring of the lowercase of
    [title + " " + description]; no keyword is reported twice. *)
Theorem keyword_matches_exact `{PyRuntime} (ev : Event) :
  NoDup (_find_keyword_matches ev) /\
  forall keyword,
    In keyword (_find_keyword_matches ev) <->
    In keyword relevance_keywords /\
    exists pre post,
      py_lower (title ev ++ str " " ++ description ev)
      = pre ++ py_lower keyword ++ post.
Proof.
  rewrite RankerFacts.find_keyword_matches_filter. split.
  - apply NoDup_filter, relevance_keywords_NoDup.
  - intros keyword. rewrite filter_In. unfold occurs_in.
    rewrite PyStrFacts.contains_spec. reflexivity.
Qed.

(** X3.  Ranking loses no event to an error: the ranked output is a
    rearrangement of the scored events that reach 0.6, so it is never longer
    than the input and every ranked event wraps an input event. *)
Theorem rank_events_complete `{PyRuntime} (oracle : nat -> oracle_reply)
    (events : list Event) :
  Permutation
    (filter (fun r => fge (relevance_score r) f0_6) (scored oracle 0 events))
    (rank_events oracle events) /\
  (List.length (rank_events oracle events) <= List.length events)%nat /\
  Forall (fun r => In (event r) events) (rank_events oracle events).
Proof.
  assert (Hperm : Permutation
            (filter (fun r => fge (relevance_score r) f0_6)
                    (scored oracle 0 events))
            (rank_events oracle events)).
  { unfold rank_events. rewrite rank_loop_filter. cbn [app].
    apply RankerFacts.sort_reverse_permutation. }
  split; [exact Hperm|]. split.
  - rewrite <- (Permutation_length Hperm).
    rewrite <- (scored_events oracle events 0) at 2. rewrite length_map.
    apply filter_length_le.
  - apply (Permutation_Forall Hperm).
    apply Forall_forall. intros r Hr. apply filter_In in Hr as [Hr _].
    rewrite <- (scored_events oracle events 0). apply in_map. exact Hr.
Qed.

(** X4.  Sorting a list that is already in non-increasing order of key
    leaves it as it is: events of equal score keep their order. *)
Theorem sort_reverse_sorted_fixed (A : Type) (key : A -> float)
    (l : list A) :
  StronglySorted (ge_key key) l -> sort_reverse key l = l.
Proof.
  intros Hs. induction Hs as [|x l Hs IH Hx]; cbn [sort_reverse].
  - reflexivity.
  - rewrite IH. destruct l as [|y l']; [reflexivity|].
    cbn [insert_desc]. inversion Hx as [|? ? Hxy _]; subst.
    rewrite (fge_not_flt _ _ Hxy). reflexivity.
Qed.

Lemma sort_reverse_sorted_fixed_witness :
  let l := [Samples.ranked Samples.networking_night f1_0;
            Samples.ranked Samples.paid_night f0_8;
            Samples.ranked Samples.networking_night f0_8] in
  sort_reverse relevance_score l = l.
Proof.
  intros l. apply sort_reverse_sorted_fixed.
  repeat constructor.
Defined.

(** X5.  The keyword score reaches its cap 1.0 exactly from five matched
    keywords on. *)
Theorem keyword_score_saturates `{PyRuntime} (ev : Event) :
  keyword_score ev = f1_0 <->
  (5 <= List.length (_find_keyword_matches ev))%nat.
Proof.
  unfold keyword_score.
  pose proof (RankerFacts.keyword_count_le ev) as Hle.
  rewrite <- RankerFacts.keyword_matches_count in Hle.
  generalize dependent (List.length (_find_keyword_matches ev)).
  intros k Hk.
  do 20 (destruct k as [|k];
         [vm_compute; split; intros E; solve [discriminate | reflexivity | lia]|]).
  lia.
Qed.

(* ================================================================== *)
(** * Further properties of the action component *)
(* ================================================================== *)

Lemma register_single_event_ok `{PyRuntime} (ranked_event : RankedEvent) :
  success (_register_single_event ranked_event None) = true.
Proof.
  unfold _register_single_event, _register_connpass, _register_peatix,
    _register_meetup, _register_generic, simulate, try_except.
  destruct (source_platform (event ranked_event)); reflexivity.
Qed.

Lemma register_single_event_event `{PyRuntime} (ranked_event : RankedEvent)
    (fault : option pystr) :
  reg_event (_register_single_event ranked_event fault) = ranked_event.
Proof.
  unfold _register_single_event, _register_connpass, _register_peatix,
    _register_meetup, _register_generic, simulate, try_except, failed.
  destruct (source_platform (event ranked_event)), fault; reflexivity.
Qed.

Lemma register_loop_no_fault `{PyRuntime} (ranked_events : list RankedEvent)
    (i : nat) (results : list RegistrationResult) (count : nat) :
  register_loop (fun _ => None) i ranked_events results count
  = results ++
    map (fun re => _register_single_event re None)
        (firstn (3 - count) (filter _should_register ranked_events)).
Proof.
  revert i results count.
  induction ranked_events as [|re rest IH]; intros i results count;
    cbn [register_loop filter].
  - rewrite firstn_nil. cbn [map]. rewrite app_nil_r. reflexivity.
  - destruct (3 <=? count)%nat eqn:Hcap.
    + apply Nat.leb_le in Hcap.
      replace (3 - count)%nat with 0%nat by lia.
      cbn [firstn map]. rewrite app_nil_r. reflexivity.
    + apply Nat.leb_gt in Hcap.
      destruct (_should_register re); [|apply IH].
      rewrite register_single_event_ok, IH, <- app_assoc.
      replace (3 - count)%nat with (S (3 - S count)) by lia.
      reflexivity.
Qed.

Lemma register_loop_prefix `{PyRuntime} (faults : nat -> option pystr)
    (ranked_events : list RankedEvent) (i : nat)
    (results : list RegistrationResult) (count : nat) :
  exists fresh rest,
    register_loop faults i ranked_events results count = results ++ fresh /\
    filter _should_register ranked_events = map reg_event fresh ++ rest.
Proof.
  revert i results count.
  induction ranked_events as [|re rest IH]; intros i results count;
    cbn [register_loop filter].
  - exists [], []. rewrite app_nil_r. split; reflexivity.
  - destruct (3 <=? count)%nat.
    + exists [], (if _should_register re
                  then re :: filter _should_register rest
                  else filter _should_register rest).
      rewrite app_nil_r. split; reflexivity.
    + destruct (_should_register re).
      * destruct (IH (S i)
                    (results ++ [_register_single_event re (faults i)])
                    (if success (_register_single_event re (faults i))
                     then S count else count))
          as [fresh [rest' [Hrun Hfilter]]].
        exists (_register_single_event re (faults i) :: fresh), rest'.
        split.
        -- rewrite Hrun, <- app_assoc. reflexivity.
        -- cbn [map app]. rewrite register_single_event_event, Hfilter.
           reflexivity.
      * apply IH.
Qed.

(** X6.  When no registration raises, the results are the successful
    registrations of the first three eligible events, in input order. *)
Theorem register_first_three_eligible `{PyRuntime}
    (ranked_events : list RankedEvent) :
  register_for_events (fun _ => None) ranked_events
  = map (fun re => _register_single_event re None)
        (firstn 3 (filter _should_register ranked_events)).
Proof.
  unfold register_for_events. rewrite register_loop_no_fault. reflexivity.
Qed.

(** X7.  Whatever fails, the results follow the eligible events in input
    order, one result per eligible event from the first on and none for an
    event that is not eligible. *)
Theorem results_follow_eligible `{PyRuntime} (faults : nat -> option pystr)
    (ranked_events : list RankedEvent) :
  (exists rest,
      filter _should_register ranked_events
      = map reg_event (register_for_events faults ranked_events) ++ rest) /\
  Forall (fun r => _should_register (reg_event r) = true /\
                   In (reg_event r) ranked_events)
         (register_for_events faults ranked_events).
Proof.
  unfold register_for_events.
  destruct (register_loop_prefix faults ranked_events 0 [] 0)
    as [fresh [rest [Hrun Hfilter]]].
  rewrite Hrun. cbn [app]. split; [exists rest; exact Hfilter|].
  apply Forall_forall. intros r Hr.
  assert (Hin : In (reg_event r) (filter _should_register ranked_events)).
  { rewrite Hfilter. apply in_or_app. left. apply in_map. exact Hr. }
  apply filter_In in Hin. tauto.
Qed.

(** X8.  A registration succeeds exactly when nothing raises while it is
    simulated; its result always carries the ranked event it was made for,
    and a failure carries the text of the exception behind a prefix, with
    neither confirmation data nor QR code. *)
Theorem registration_outcome `{PyRuntime} (ranked_event : RankedEvent)
    (fault : option pystr) :
  reg_event (_register_single_event ranked_event fault) = ranked_event /\
  (success (_register_single_event ranked_event fault) = true <->
   fault = None) /\
  (forall e, fault = Some e ->
     (exists prefix,
        error_message (_register_single_event ranked_event fault)
        = Some (prefix ++ e)) /\
     confirmation_data (_register_single_event ranked_event fault) = None /\
     qr_code_url (_register_single_event ranked_event fault) = None).
Proof.
  split; [apply register_single_event_event|].
  unfold _register_single_event, _register_connpass, _register_peatix,
    _register_meetup, _register_generic, simulate, try_except, failed.
  destruct (source_platform (event ranked_event)), fault as [e|];
    cbn [platform_value eqb str map list_ascii_of_string N_of_ascii
         N.eqb Pos.eqb andb N_of_digits N.add N.mul
         success confirmation_data error_message qr_code_url];
    (split; [split; intros Hx; first [reflexivity | discriminate Hx]|]);
    intros e' He; inversion He; subst;
    (split; [eexists; reflexivity | split; reflexivity]).
Qed.

Lemma registration_outcome_witness :
  error_message
    (_register_single_event (H := plain_runtime)
       (Samples.ranked Samples.networking_night f1_0) (Some (str "boom")))
  = Some (str "Peatix registration failed: boom").
Proof.
  destruct (proj1 (proj2 (proj2
              (@registration_outcome plain_runtime
                 (Samples.ranked Samples.networking_night f1_0)
                 (Some (str "boom")))) (str "boom") eq_refl))
    as [prefix Hmsg].
  reflexivity.
Defined.

(** X9.  A result carries a QR code exactly when the registration
    succeeded on Connpass or on Peatix, and the code is then a link to the
    QR server. *)
Theorem qr_code_platforms `{PyRuntime} (ranked_event : RankedEvent)
    (fault : option pystr) :
  (qr_code_url (_register_single_event ranked_event fault) <> None <->
   fault = None /\
   (source_platform (event ranked_event) = CONNPASS \/
    source_platform (event ranked_event) = PEATIX)) /\
  (forall url,
     qr_code_url (_register_single_event ranked_event fault) = Some url ->
     startswith url qr_server = true).
Proof.
  unfold _register_single_event, _register_connpass, _register_peatix,
    _register_meetup, _register_generic, simulate, try_except, failed.
  destruct (source_platform (event ranked_event)), fault as [e|];
    cbn [platform_value eqb str map list_ascii_of_string N_of_ascii
         N.eqb Pos.eqb andb N_of_digits N.add N.mul qr_code_url];
    (split;
     [ split;
       [ intros Hq;
         first [ exfalso; apply Hq; reflexivity
               | split; [reflexivity
                        | first [left; reflexivity | right; reflexivity]] ]
       | intros [Hf Hp] Hq;
         first [ discriminate Hf
               | destruct Hp as [Hp | Hp]; discriminate Hp
               | discriminate Hq ] ]
     | intros url Hurl;
       first [ discriminate Hurl
             | inversion Hurl; subst;
               apply PyStrFacts.startswith_spec; eexists; reflexivity ] ]).
Qed.

Lemma qr_code_platforms_witness :
  startswith
    (qr_server ++ str "PEATIX_" ++
     hash_text (PyRuntime := plain_runtime)
       (source_url Samples.networking_night))
    qr_server = true.
Proof.
  apply (proj2 (@qr_code_platforms plain_runtime
                  (Samples.ranked Samples.networking_night f1_0) None)).
  reflexivity.
Defined.

(** X10.  The confirmation data of a successful registration always holds
    the keys ["platform"] and ["status"], and ["platform"] is the platform
    of the event. *)
Theorem confirmation_names_platform `{PyRuntime}
    (ranked_event : RankedEvent) :
  exists data status,
    confirmation_data (_register_single_event ranked_event None)
    = Some data /\
    Dict.get data (str "platform")
    = Some (AStr (platform_value (source_platform (event ranked_event)))) /\
    Dict.get data (str "status") = Some (AStr status).
Proof.
  unfold _register_single_event, _register_connpass, _register_peatix,
    _register_meetup, _register_generic, simulate, try_except.
  destruct (source_platform (event ranked_event));
    cbn [platform_value eqb str map list_ascii_of_string N_of_ascii
         N.eqb Pos.eqb andb N_of_digits N.add N.mul confirmation_data];
    eexists; eexists; (split; [reflexivity|]); split; reflexivity.
Qed.

(* ================================================================== *)
(** * Further properties of persistence *)
(* ================================================================== *)

Lemma save_loop_length (store : Type)
    (select_id : store -> pystr -> result (list key))
    (insert : store -> event_row -> store * result (list key))
    (clock : nat -> datetime) (events : list Event) :
  forall (i : nat) (st : store) (acc : list key),
    (List.length (snd (save_loop select_id insert clock i st events acc))
     <= List.length acc + List.length events)%nat.
Proof.
  induction events as [|ev rest IH]; intros i st acc; cbn [save_loop].
  - cbn [snd List.length]. lia.
  - cbn [List.length].
    destruct (select_id st (source_url ev)) as [[|k ks]|msg].
    + destruct (insert st (event_data (clock i) ev)) as [st' [[|k ks]|msg]].
      * specialize (IH (S i) st' acc). lia.
      * specialize (IH (S i) st' (acc ++ [k])).
        rewrite length_app in IH. cbn [List.length] in IH. lia.
      * specialize (IH (S i) st' acc). lia.
    + specialize (IH (S i) st (acc ++ [k])).
      rewrite length_app in IH. cbn [List.length] in IH. lia.
    + specialize (IH (S i) st acc). lia.
Qed.

(** X11.  Whatever the store does (raise, return nothing, return several
    rows), [save_events] returns at most one key per event. *)
Theorem save_events_at_most_one_key (store : Type)
    (select_id : store -> pystr -> result (list key))
    (insert : store -> event_row -> store * result (list key))
    (clock : nat -> datetime) (st : store) (events : list Event) :
  (List.length (snd (save_events select_id insert clock st events))
   <= List.length events)%nat.
Proof.
  unfold save_events.
  apply (save_loop_length select_id insert clock events 0 st []).
Qed.

Lemma save_loop_lookup_raises (store : Type)
    (select_id : store -> pystr -> result (list key))
    (insert : store -> event_row -> store * result (list key))
    (clock : nat -> datetime) (st : store) (events : list Event) :
  (forall ev, In ev events ->
     exists msg, select_id st (source_url ev) = Raise msg) ->
  forall (i : nat) (acc : list key),
    save_loop select_id insert clock i st events acc = (st, acc).
Proof.
  induction events as [|ev rest IH]; intros Hraise i acc; cbn [save_loop].
  - reflexivity.
  - destruct (Hraise ev (or_introl eq_refl)) as [msg Hmsg].
    rewrite Hmsg. apply IH.
    intros ev' Hin. apply Hraise. right. exact Hin.
Qed.

(** X12.  An event whose lookup raises is skipped without an insert: when
    the lookup raises for every event, no key is returned and the store is
    left as it was. *)
Theorem save_events_lookup_raises (store : Type)
    (select_id : store -> pystr -> result (list key))
    (insert : store -> event_row -> store * result (list key))
    (clock : nat -> datetime) (st : store) (events : list Event) :
  (forall ev, In ev events ->
     exists msg, select_id st (source_url ev) = Raise msg) ->
  save_events select_id insert clock st events = (st, []).
Proof.
  intros Hraise. unfold save_events.
  apply save_loop_lookup_raises. exact Hraise.
Qed.

Lemma save_events_lookup_raises_witness :
  save_events (fun (_ : unit) (_ : pystr) => Raise (str "connection reset"))
    (fun st _ => (st, Ok [str "never"])) (fun _ => 0%Z) tt
    [Samples.networking_night; Samples.paid_night]
  = (tt, []).
Proof.
  apply save_events_lookup_raises.
  intros ev _. exists (str "connection reset"). reflexivity.
Defined.

(** X13.  Against a store that honours its contract, [save_events] keeps
    [source_url] unique: if no [source_url] has more than one row before,
    none has more than one row after. *)
Theorem save_events_keeps_unique (store : Type)
    (select_id : store -> pystr -> result (list key))
    (insert : store -> event_row -> store * result (list key))
    (rows_of : store -> pystr -> list key)
    (clock : nat -> datetime) (st : store) (events : list Event) :
  honours_contract select_id insert rows_of ->
  (forall u, (List.length (rows_of st u) <= 1)%nat) ->
  forall u,
    (List.length
       (rows_of (fst (save_events select_id insert clock st events)) u)
     <= 1)%nat.
Proof.
  intros contract Huniq u. unfold save_events.
  destruct (StorageFacts.save_loop_inv contract events clock 0 st [])
    as [st' [Hrun [_ [Hkeep Hone]]]].
  rewrite Hrun. cbn [fst].
  destruct (rows_of st u) as [|k tl] eqn:Hrows.
  - apply Hone. exact Hrows.
  - rewrite Hkeep by (rewrite Hrows; discriminate).
    apply Huniq.
Qed.

Lemma save_events_keeps_unique_witness :
  (List.length
     (list_rows_of
        (fst (save_events list_select (list_insert counter_key)
                (fun _ => 0%Z) []
                [Samples.networking_night; Samples.paid_night;
                 Samples.networking_night]))
        (source_url Samples.networking_night))
   <= 1)%nat.
Proof.
  apply (@save_events_keeps_unique _ list_select (list_insert counter_key)
           list_rows_of (fun _ => 0%Z) []
           [Samples.networking_night; Samples.paid_night;
            Samples.networking_night]
           (StorageFacts.list_store_honours_contract counter_key)).
  intros u. cbn. lia.
Defined.

(* ================================================================== *)
(** * Further properties of the digest *)
(* ================================================================== *)

Import Notifier.




(** X19.  [send_weekly_digest] returns [False] in one situation only:
    Telegram is configured and its send raises, and the e-mail user name
    is set while the password is not or the SMTP submission raises. *)
Theorem send_weekly_digest_false `{PyRuntime} (env : channels)
    (ranked_events : list RankedEvent) :
  send_weekly_digest env ranked_events = false <->
  (telegram_bot env = true /\
   (exists msg,
       telegram_send env (digest_events ranked_events) = Raise msg) /\
   truthy (EMAIL_USERNAME env) = true /\
   (truthy (EMAIL_PASSWORD env) = false \/
    exists msg, smtp_send env (digest_events ranked_events) = Raise msg)).
Proof.
  unfold send_weekly_digest, _send_telegram_digest, _send_email_digest.
  destruct (telegram_bot env);
    destruct (telegram_send env (digest_events ranked_events)) as [u | e];
    destruct (truthy (EMAIL_USERNAME env));
    destruct (truthy (EMAIL_PASSWORD env));
    destruct (smtp_send env (digest_events ranked_events)) as [u' | e'];
    cbn [try_except bind negb orb];
    (split;
     [ intros Hf;
       first [ discriminate Hf
             | split; [reflexivity|]; split; [eexists; reflexivity|];
               split; [reflexivity|];
               first [ left; reflexivity | right; eexists; reflexivity ] ]
     | intros [Ht [[msg Hm] [Hu Hp]]];
       first [ reflexivity | discriminate Ht | discriminate Hm
             | discriminate Hu
             | destruct Hp as [Hp | [msg' Hp]]; discriminate Hp ] ]).
Qed.

(* ================================================================== *)
(** * Further properties of discovery *)
(* ================================================================== *)

Import DiscoverySpec.

Lemma parse_loop_map `{PyRuntime} (clk : clock) (city : pystr)
    (items : list (option connpass_event)) :
  forall (i : nat) (parsed_events : list Event),
    parse_loop clk city i items parsed_events
    = parsed_events ++ map (parsed clk city) (readable_from i items).
Proof.
  induction items as [|[item|] rest IH]; intros i parsed_events;
    cbn [parse_loop readable_from map app].
  - rewrite app_nil_r. reflexivity.
  - rewrite IH, <- app_assoc. reflexivity.
  - apply IH.
Qed.

Lemma readable_length (items : list (option connpass_event)) (i : nat) :
  (List.length (readable_from i items) <= List.length items)%nat.
Proof.
  revert i. induction items as [|[item|] rest IH]; intros i;
    cbn [readable_from List.length]; [lia | |];
    specialize (IH (S i)); lia.
Qed.

Lemma fee_price_shape (fee : fee_value) :
  fee_price fee = str "Free" \/ exists text, fee_price fee = 165%N :: text.
Proof.
  destruct fee as [s | text]; cbn [fee_price].
  - destruct (eqb s (str "0")); [left; reflexivity | right; eexists; reflexivity].
  - right. eexists. reflexivity.
Qed.

Lemma parsed_shape `{PyRuntime} (clk : clock) (city : pystr)
    (items : list (nat * connpass_event)) :
  Forall connpass_shaped (map (parsed clk city) items).
Proof.
  apply Forall_forall. intros e He. apply in_map_iff in He as [item [<- _]].
  unfold connpass_shaped, parsed, parse_connpass_event.
  cbn [source_platform registration_required price].
  split; [reflexivity|]. split; [reflexivity|].
  apply fee_price_shape.
Qed.

Lemma mock_shape `{PyRuntime} (clk : clock) (city : pystr) :
  Forall connpass_shaped (_get_connpass_mock_events clk city).
Proof.
  constructor; [|constructor].
  split; [reflexivity|]. split; [reflexivity|]. left. reflexivity.
Qed.

Lemma search_connpass_success `{PyRuntime} (status_code : Z)
    (items : list (option connpass_event)) (clk : clock) (city : pystr) :
  is_success status_code = true ->
  _search_connpass (HttpResponse status_code (Ok items)) clk city
  = Ok (map (parsed clk city) (readable (firstn 5 items))).
Proof.
  intros Hok. unfold _search_connpass.
  assert (H403 : (status_code =? 403)%Z = false).
  { unfold is_success in Hok. apply andb_true_iff in Hok as [_ Hhi].
    apply Z.leb_le in Hhi. apply Z.eqb_neq. lia. }
  rewrite H403, Hok. cbn [negb bind try_except].
  rewrite parse_loop_map. reflexivity.
Qed.

Lemma search_connpass_shape `{PyRuntime} (reply : http_reply) (clk : clock)
    (city : pystr) :
  exists events,
    _search_connpass reply clk city = Ok events /\
    (List.length events <= 5)%nat /\
    Forall connpass_shaped events.
Proof.
  destruct (query_fails reply) eqn:Hfails.
  - exists (_get_connpass_mock_events clk city).
    split; [apply FinderFacts.search_connpass_fallback; exact Hfails|].
    split; [cbn [_get_connpass_mock_events List.length]; lia|].
    apply mock_shape.
  - destruct reply as [msg | status_code [items | msg]];
      cbn [query_fails] in Hfails; try discriminate.
    + apply orb_false_iff in Hfails as [Hok _].
      apply negb_false_iff in Hok.
      exists (map (parsed clk city) (readable (firstn 5 items))).
      split; [apply search_connpass_success; exact Hok|].
      split; [|apply parsed_shape].
      rewrite length_map.
      pose proof (readable_length (firstn 5 items) 0).
      pose proof (firstn_le_length 5 items). unfold readable. lia.
    + rewrite orb_true_r in Hfails. discriminate.
Qed.

(** X14.  [_convert_city_name] answers with one of the three target
    cities or with the city it was given; it keeps the given city when the
    address names none of the three, and an address that names Osaka wins
    over the given city. *)
Theorem convert_city_name_cases `{PyRuntime}
    (english_city japanese_address : pystr) :
  (In (_convert_city_name english_city japanese_address) cities \/
   _convert_city_name english_city japanese_address = english_city) /\
  (forallb (fun entry => negb (any_in (snd entry) (py_lower japanese_address)))
           city_mapping = true ->
   _convert_city_name english_city japanese_address = english_city) /\
  (any_in [ [22823; 38442]%N; 333%N :: str "saka"; str "osaka" ]
          (py_lower japanese_address) = true ->
   _convert_city_name english_city japanese_address = str "Osaka").
Proof.
  unfold _convert_city_name, city_mapping. cbn [find forallb snd].
  destruct (any_in [ [22823; 38442]%N; 333%N :: str "saka"; str "osaka" ]
                   (py_lower japanese_address));
    [|destruct (any_in [ [31070; 25144]%N; [107; 333; 98; 101]%N; str "kobe" ]
                       (py_lower japanese_address));
      [|destruct (any_in [ [20140; 37117]%N; [107; 121; 333; 116; 111]%N;
                           str "kyoto" ] (py_lower japanese_address))]];
    cbn [negb andb];
    (split; [first [ right; reflexivity
                   | left; left; reflexivity
                   | left; right; left; reflexivity
                   | left; right; right; left; reflexivity ]|]);
    (split; [intros Hx | intros Hx];
     first [reflexivity | discriminate Hx]).
Qed.

Lemma convert_city_name_cases_witness :
  _convert_city_name (H := plain_runtime) (str "Kyoto") (str "Umeda, OSAKA")
  = str "Osaka" /\
  _convert_city_name (H := plain_runtime) (str "Kyoto") (str "Tokyo")
  = str "Kyoto".
Proof.
  split.
  - apply (proj2 (proj2 (@convert_city_name_cases plain_runtime
                           (str "Kyoto") (str "Umeda, OSAKA")))).
    reflexivity.
  - apply (proj1 (proj2 (@convert_city_name_cases plain_runtime
                           (str "Kyoto") (str "Tokyo")))).
    reflexivity.
Defined.

(** X15.  Whatever Connpass answers and whatever the clock,
    the search for a city returns without raising, with at most five
    events, each tagged Connpass, requiring registration and priced
    ["Free"] or with a yen sign in front; on a 2xx answer with a
    well-formed payload the events are those parsed, in order, from the
    elements among the first five of the payload on which parsing does not
    raise. *)
Theorem search_connpass_bounded `{PyRuntime} (reply : http_reply)
    (clk : clock) (city : pystr) :
  (exists events,
      _search_connpass reply clk city = Ok events /\
      (List.length events <= 5)%nat /\
      Forall connpass_shaped events) /\
  (forall status_code items,
      reply = HttpResponse status_code (Ok items) ->
      is_success status_code = true ->
      _search_connpass reply clk city
      = Ok (map (parsed clk city) (readable (firstn 5 items)))).
Proof.
  split.
  - apply search_connpass_shape.
  - intros status_code items -> Hok.
    apply search_connpass_success. exact Hok.
Qed.

Lemma search_connpass_bounded_witness :
  let item := {| c_title := Some (str "Paid seminar");
                 c_description := None; c_place := None;
                 c_address := Some (str "Kobe"); c_event_url := None;
                 c_started_at := None;
                 c_fee := Some (FeeStr (str "500")) |} in
  _search_connpass (H := plain_runtime)
    (HttpResponse 200 (Ok [Some item; None; Some item; Some item;
                           Some item; Some item; Some item]))
    (fun _ => 0%Z) (str "Osaka")
  = Ok (map (parsed (H := plain_runtime) (fun _ => 0%Z) (str "Osaka"))
            [(0%nat, item); (2%nat, item); (3%nat, item); (4%nat, item)]).
Proof.
  intros item.
  apply (proj2 (@search_connpass_bounded plain_runtime
                  (HttpResponse 200
                     (Ok [Some item; None; Some item; Some item;
                          Some item; Some item; Some item]))
                  (fun _ => 0%Z) (str "Osaka")) 200%Z
               [Some item; None; Some item; Some item;
                Some item; Some item; Some item] eq_refl eq_refl).
Defined.

Lemma search_platform_shape `{PyRuntime} (w : world)
    (platform : EventPlatform) (city : pystr) :
  Forall (fun e => registration_required e = true)
         (_search_platform w platform city) /\
  (List.length (_search_platform w platform city) <= 5)%nat /\
  (platform = PEATIX \/ platform = MEETUP ->
   List.length (_search_platform w platform city) = 1%nat).
Proof.
  destruct platform; cbn [_search_platform _search_peatix _search_meetup
                          try_except List.length];
    try (split; [repeat constructor | split; [lia|]];
         intros [Hp | Hp]; first [discriminate Hp | reflexivity]).
  unfold _search_platform.
  destruct (search_connpass_shape (connpass w city) (now w CONNPASS city) city)
    as [events [Hrun [Hlen Hshape]]].
  rewrite Hrun. cbn [try_except].
  split; [|split; [exact Hlen | intros [Hp | Hp]; discriminate Hp]].
  apply (Forall_impl _ (fun e (He : connpass_shaped e) => proj1 (proj2 He))).
  exact Hshape.
Qed.

(** X16.  A discovery that returns never comes back empty and never with
    more than 21 events: Peatix and Meetup give one event for each of the
    three cities, Connpass at most five; and every discovered event
    requires registration.  It returns exactly when closing the HTTP
    client does not raise. *)
Theorem discover_events_bounds `{PyRuntime} (w : world) :
  (forall events,
      discover_events w = Ok events ->
      (6 <= List.length events <= 21)%nat /\
      Forall (fun e => registration_required e = true) events) /\
  ((exists events, discover_events w = Ok events) <->
   (exists u, aclose w = Ok u)).
Proof.
  pose proof (FinderFacts.discover_events_outcome w) as Hout.
  split.
  - intros events Hret. rewrite Hout in Hret.
    destruct (aclose w) as [u | e]; [|discriminate].
    injection Hret as <-. unfold FallbackSpec.gathered. split.
    + unfold pairs, cities, platforms.
      cbn [flat_map map app fst snd List.concat].
      rewrite !length_app. cbn [List.length].
      repeat match goal with
      | |- context [List.length (_search_platform w ?p ?c)] =>
          let Hl := fresh "Hl" in
          let H1 := fresh "H1" in
          destruct (search_platform_shape w p c) as [_ [Hl H1]];
          first [ rewrite (H1 (or_introl eq_refl))
                | rewrite (H1 (or_intror eq_refl))
                | generalize dependent (List.length (_search_platform w p c));
                  intros ]
      end.
      lia.
    + apply Forall_concat. apply Forall_forall. intros l Hl.
      apply in_map_iff in Hl as [[p c] [<- _]].
      apply (search_platform_shape w p c).
  - rewrite Hout. destruct (aclose w) as [u | e]; split.
    + intros _. exists u. reflexivity.
    + intros _. eexists. reflexivity.
    + intros [events Hx]. discriminate Hx.
    + intros [u Hx]. discriminate Hx.
Qed.

Lemma discover_events_bounds_witness :
  (6 <= List.length (FallbackSpec.gathered (H := plain_runtime)
                       Samples.connpass_down) <= 21)%nat.
Proof.
  apply (proj1 (@discover_events_bounds plain_runtime Samples.connpass_down)
               (FallbackSpec.gathered (H := plain_runtime)
                  Samples.connpass_down)).
  reflexivity.
Defined.

(** X17.  When every Connpass query fails, a discovery that returns gives
    exactly nine events, all priced ["Free"]; such an event is registered
    as soon as its relevance score is not below 0.8. *)
Theorem fallback_events_registrable `{PyRuntime} (w : world)
    (events : list Event) :
  (forall city, In city cities -> query_fails (connpass w city) = true) ->
  discover_events w = Ok events ->
  List.length events = 9%nat /\
  Forall (fun e =>
            price e = str "Free" /\
            forall ranked_event,
              event ranked_event = e ->
              flt (relevance_score ranked_event) f0_8 = false ->
              _should_register ranked_event = true)
         events.
Proof.
  intros Hdown Hret.
  assert (Hfree : forall e, price e = str "Free" ->
                            registration_required e = true ->
                            forall r, event r = e ->
                                      flt (relevance_score r) f0_8 = false ->
                                      _should_register r = true).
  { intros e Hp Hr r <- Hs.
    rewrite RegistrarFacts.should_register_eq, Hs, Hr, Hp. reflexivity. }
  assert (Hpair : forall p c, In (p, c) pairs ->
            List.length (_search_platform w p c) = 1%nat /\
            Forall (fun e => price e = str "Free" /\
                             registration_required e = true)
                   (_search_platform w p c)).
  { intros p c Hin.
    assert (Hc : In c cities).
    { unfold pairs in Hin. apply in_flat_map in Hin as [c' [Hc' Hin]].
      apply in_map_iff in Hin as [p' [E _]]. inversion E; subst. exact Hc'. }
    destruct p;
      try solve [ exfalso; unfold pairs, cities, platforms in Hin;
                  cbn in Hin; intuition discriminate ];
      try solve [ cbn [_search_platform _search_peatix _search_meetup
                       try_except List.length];
                  split; [reflexivity | repeat constructor] ].
    unfold _search_platform.
    rewrite (FinderFacts.search_connpass_fallback _ _ _ (Hdown c Hc)).
    cbn [try_except _get_connpass_mock_events List.length].
    split; [reflexivity | repeat constructor]. }
  rewrite FinderFacts.discover_events_outcome in Hret.
  destruct (aclose w) as [u | e]; [|discriminate].
  injection Hret as <-. unfold FallbackSpec.gathered. split.
  - unfold pairs, cities, platforms.
    cbn [flat_map map app fst snd List.concat].
    rewrite !length_app. cbn [List.length].
    repeat match goal with
    | |- context [List.length (_search_platform w ?p ?c)] =>
        rewrite (proj1 (Hpair p c
                   ltac:(unfold pairs, cities, platforms; cbn; tauto)))
    end.
    reflexivity.
  - apply Forall_concat. apply Forall_forall. intros l Hl.
    apply in_map_iff in Hl as [[p c] [<- Hin]].
    apply (Forall_impl _ (fun e (He : price e = str "Free" /\
                                      registration_required e = true) =>
             conj (proj1 He) (Hfree e (proj1 He) (proj2 He)))).
    apply (proj2 (Hpair p c Hin)).
Qed.

Lemma fallback_events_registrable_witness :
  List.length (FallbackSpec.gathered (H := plain_runtime)
                 Samples.connpass_down)
  = 9%nat.
Proof.
  apply (@fallback_events_registrable plain_runtime Samples.connpass_down
           (FallbackSpec.gathered (H := plain_runtime)
              Samples.connpass_down)).
  - intros city _. reflexivity.
  - reflexivity.
Defined.
